(** * flickr: release resolution, reference building and signing

    A shallow embedding of the Go packages [ref], [signer], [eth],
    [docker] and [controller] of flickr, with the properties of the
    specification stated and proved over it.

    Conventions of the embedding.
    - A Go [string] is a byte sequence: Rocq's [string] (a list of 8-bit
      [ascii]).  A Go [[]byte] or [[32]byte] is a [list byte].
    - A Go [error] is a value of type [error] below; [nil] is [None].
      A Go function returning [(T, error)] returns a pair [T * option error].
    - [uint32] and [uint64] values are [N]; the code only prints and
      forwards them, so no wrap-around arithmetic is involved.
    - A Go [map[string]string] is a [gmap string string].
    - The external collaborators (ledger client, container runtime) are
      interfaces in the source; here they are records of state-passing
      functions over an arbitrary state type. *)

From Stdlib Require Import String Ascii NArith ZArith List Lia DecimalString.
From Stdlib.Strings Require Import Byte.
From stdpp Require Import base option gmap strings list fin_maps.

Set Implicit Arguments.

Local Open Scope string_scope.

(** ** Go errors *)

(** [errors.New]/[fmt.Errorf] without [%w] give an [errorString];
    [fmt.Errorf] with [%w] gives a [wrapError] that remembers its cause. *)
Inductive error : Type :=
| errorString (s : string)
| wrapError (msg : string) (cause : error).

(** [err.Error()] *)
Definition Error (e : error) : string :=
  match e with
  | errorString s => s
  | wrapError msg _ => msg
  end.

(** ** Package [strings] of the Go standard library *)
Module gostrings.

(** [strings.HasPrefix(s, prefix)] *)
Fixpoint HasPrefix (s prefix : string) {struct prefix} : bool :=
  match prefix with
  | EmptyString => true
  | String p prefix' =>
      match s with
      | EmptyString => false
      | String c s' => if Ascii.eqb c p then HasPrefix s' prefix' else false
      end
  end.

(** [strings.Contains(s, substr)] *)
Fixpoint Contains (s substr : string) : bool :=
  if HasPrefix s substr then true
  else match s with
       | EmptyString => false
       | String _ s' => Contains s' substr
       end.

(** [strings.ToLower] on one byte of an ASCII string: ['A'..'Z'] move
    down by 32, everything else is kept. *)
Definition toLowerByte (c : ascii) : ascii :=
  let n := N_of_ascii c in
  if (65 <=? n)%N && (n <=? 90)%N then ascii_of_N (n + 32) else c.

(** [strings.ToLower(s)], for [s] made of ASCII bytes (the only use in
    this program is on the output of [hex.EncodeToString]). *)
Fixpoint ToLower (s : string) : string :=
  match s with
  | EmptyString => EmptyString
  | String c s' => String (toLowerByte c) (ToLower s')
  end.

(** [s[n:]] *)
Fixpoint skip (n : nat) (s : string) : string :=
  match n, s with
  | S n', String _ s' => skip n' s'
  | _, _ => s
  end.

(** The text before and the text after the first occurrence of [sep]. *)
Fixpoint cut (s sep : string) : option (string * string) :=
  if HasPrefix s sep then Some (EmptyString, skip (String.length sep) s)
  else match s with
       | EmptyString => None
       | String c s' =>
           match cut s' sep with
           | Some (before, after) => Some (String c before, after)
           | None => None
           end
       end.

(** [strings.SplitN(s, sep, 2)] for a separator that is not empty. *)
Definition SplitN_2 (s sep : string) : list string :=
  match cut s sep with
  | Some (before, after) => [before; after]
  | None => [s]
  end.

End gostrings.

(** ** Package [encoding/hex] of the Go standard library *)
Module gohex.

Definition hextable : string := "0123456789abcdef".

(** [hextable[i]]; the index is always below 16 here. *)
Definition hexchar (i : N) : ascii :=
  match String.get (N.to_nat i) hextable with
  | Some c => c
  | None => "000"%char
  end.

(** [hex.EncodeToString(src)]: for each byte [v], [hextable[v>>4]] then
    [hextable[v&0x0f]]. *)
Fixpoint EncodeToString (src : list byte) : string :=
  match src with
  | [] => EmptyString
  | v :: rest =>
      String (hexchar (N.shiftr (Byte.to_N v) 4))
        (String (hexchar (N.land (Byte.to_N v) 15)) (EncodeToString rest))
  end.

(** The lowercase hexadecimal digit of a value below 16, by arithmetic
    on character codes: ['0'] is 48 and ['a'] is 97.  Used to state what
    the encoding must produce. *)
Definition lower_hex_digit (n : N) : ascii :=
  ascii_of_N (if (n <? 10)%N then 48 + n else 87 + n).

End gohex.

(** ** Package [fmt] of the Go standard library *)
Module gofmt.

(** [fmt.Sprintf("%d", n)] for an unsigned integer. *)
Definition Sprintf_d (n : N) : string :=
  NilZero.string_of_uint (N.to_uint n).

End gofmt.

(** ** Package [ref] *)
Module ref.
Import gostrings.

Definition Digest32ToSha256String (d : list byte) : string :=
  "sha256:" ++ ToLower (gohex.EncodeToString d).

Definition BuildReference (registry digest : string) : string * option error :=
  if String.eqb registry "" then
    ("", Some (errorString "empty registry"))
  else if Contains registry "@sha256:" then
    (registry, None)
  else if negb (HasPrefix digest "sha256:") then
    ("", Some (errorString "invalid digest format"))
  else
    (registry ++ "@" ++ digest, None).

(** The two failures of [BuildReference], by the names of the
    specification's taxonomy. *)
Definition EmptyRegistry : error := errorString "empty registry".
Definition InvalidDigestFormat : error := errorString "invalid digest format".

End ref.


(** ** go-ethereum, as far as the program uses it *)

(** [common.Address] is a [[20]byte]. *)
Definition Address : Type := list byte.

#[global] Instance byte_eq_dec : EqDecision byte.
Proof.
  intros a b. destruct (Byte.eqb a b) eqn:E.
  - left. apply Byte.byte_dec_bl, E.
  - right. intros ->. rewrite (Byte.byte_dec_lb eq_refl) in E. discriminate E.
Defined.

(** [a == b] on addresses is array comparison. *)
Definition Address_eqb (a b : Address) : bool := bool_decide (a = b).

(** [common.Address.Hex()], the checksummed hexadecimal rendering, is
    library code outside this repository. *)
Class Common : Type := {
  Hex : Address -> string
}.

(** The key and transaction types and the cryptographic primitives the
    [signer] package calls. *)
Class Crypto : Type := {
  PrivateKey : Type;
  PublicKeyT : Type;
  Transaction : Type;
  (** the [PublicKey] field of an [ecdsa.PrivateKey] *)
  PublicKey_of : PrivateKey -> PublicKeyT;
  (** [crypto.PubkeyToAddress] *)
  PubkeyToAddress : PublicKeyT -> Address;
  (** [crypto.HexToECDSA] *)
  HexToECDSA : string -> option PrivateKey * option error;
  (** [types.SignTx(tx, types.NewLondonSigner(chainID), key)] *)
  SignTx : Transaction -> Z -> PrivateKey -> option Transaction * option error;
  (** [accounts.TextHash] *)
  TextHash : list byte -> list byte;
  (** [crypto.Sign] *)
  crypto_Sign : list byte -> PrivateKey -> list byte * option error
}.

(** A Go call either returns or panics (an index out of range). *)
Inductive outcome (A : Type) : Type :=
| Returns (a : A)
| Panics.
Arguments Returns {A} a.
Arguments Panics {A}.

(** ** Calls to external collaborators

    A computation that talks to collaborators with state [W] threads
    that state and appends every call it makes, of type [C], to a trace. *)
Definition Traced (W C A : Type) : Type := W * list C -> A * (W * list C).

#[global] Instance Traced_ret {W C} : MRet (Traced W C) :=
  fun A a s => (a, s).

#[global] Instance Traced_bind {W C} : MBind (Traced W C) :=
  fun A B f m s => let (a, s') := m s in f a s'.

(** Perform the collaborator's operation [op] and record it as [c]. *)
Definition call {W C A} (c : C) (op : W -> A * W) : Traced W C A :=
  fun s => let (a, w') := op (fst s) in (a, (w', (snd s ++ [c])%list)).

(** The same, when the record of the call shows what it returned. *)
Definition callr {W C A} (c : A -> C) (op : W -> A * W) : Traced W C A :=
  fun s => let (a, w') := op (fst s) in (a, (w', (snd s ++ [c a])%list)).

(** Run from collaborator state [w] with an empty trace. *)
Definition run {W C A} (m : Traced W C A) (w : W) : A * (W * list C) :=
  m (w, []).

Definition result {W C A} (r : A * (W * list C)) : A := fst r.
Definition trace {W C A} (r : A * (W * list C)) : list C := snd (snd r).

(** ** Package [os] of the Go standard library, as far as the program
    uses it *)
Module goos.

(** The operating system over a state [W]: the home directory, the
    directory and file operations, the test for a missing file, and
    [filepath.Join] of two elements. *)
Record OS (W : Type) : Type := {
  UserHomeDir : W -> (string * option error) * W;
  MkdirAll : string -> N -> W -> option error * W;
  ReadFile : string -> W -> (list byte * option error) * W;
  WriteFile : string -> list byte -> N -> W -> option error * W;
  WriteStdout : string -> W -> unit * W;
  IsNotExist : error -> bool;
  Join : string -> string -> string
}.

Inductive Call : Type :=
| CallUserHomeDir
| CallMkdirAll (path : string) (perm : N)
| CallReadFile (name : string)
| CallWriteFile (name : string) (data : list byte) (perm : N)
| CallWriteStdout (text : string).

End goos.

(** ** Package [config]: the data *)
Module config.

Record Context : Type := {
  AVSAddress : string;
  OperatorSetID : N;
  ReleaseManager : string;
  RPCURL : string;
  Name : string;
  EnvironmentVars : gmap string string;
  ECDSAPrivateKey : string;
  KeystorePath : string;
  KeystorePassword : string
}.

(** [map[string]*Context]: an entry may hold a [nil] pointer. *)
Record Config : Type := {
  CurrentContext : string;
  Contexts : gmap string (option Context)
}.

(** Assignments to one field. *)
Definition withAVSAddress (v : string) (c : Context) : Context :=
  {| AVSAddress := v; OperatorSetID := OperatorSetID c;
     ReleaseManager := ReleaseManager c; RPCURL := RPCURL c; Name := Name c;
     EnvironmentVars := EnvironmentVars c; ECDSAPrivateKey := ECDSAPrivateKey c;
     KeystorePath := KeystorePath c; KeystorePassword := KeystorePassword c |}.
Definition withOperatorSetID (v : N) (c : Context) : Context :=
  {| AVSAddress := AVSAddress c; OperatorSetID := v;
     ReleaseManager := ReleaseManager c; RPCURL := RPCURL c; Name := Name c;
     EnvironmentVars := EnvironmentVars c; ECDSAPrivateKey := ECDSAPrivateKey c;
     KeystorePath := KeystorePath c; KeystorePassword := KeystorePassword c |}.
Definition withReleaseManager (v : string) (c : Context) : Context :=
  {| AVSAddress := AVSAddress c; OperatorSetID := OperatorSetID c;
     ReleaseManager := v; RPCURL := RPCURL c; Name := Name c;
     EnvironmentVars := EnvironmentVars c; ECDSAPrivateKey := ECDSAPrivateKey c;
     KeystorePath := KeystorePath c; KeystorePassword := KeystorePassword c |}.
Definition withRPCURL (v : string) (c : Context) : Context :=
  {| AVSAddress := AVSAddress c; OperatorSetID := OperatorSetID c;
     ReleaseManager := ReleaseManager c; RPCURL := v; Name := Name c;
     EnvironmentVars := EnvironmentVars c; ECDSAPrivateKey := ECDSAPrivateKey c;
     KeystorePath := KeystorePath c; KeystorePassword := KeystorePassword c |}.
Definition withName (v : string) (c : Context) : Context :=
  {| AVSAddress := AVSAddress c; OperatorSetID := OperatorSetID c;
     ReleaseManager := ReleaseManager c; RPCURL := RPCURL c; Name := v;
     EnvironmentVars := EnvironmentVars c; ECDSAPrivateKey := ECDSAPrivateKey c;
     KeystorePath := KeystorePath c; KeystorePassword := KeystorePassword c |}.
Definition withEnvironmentVars (v : gmap string string) (c : Context) : Context :=
  {| AVSAddress := AVSAddress c; OperatorSetID := OperatorSetID c;
     ReleaseManager := ReleaseManager c; RPCURL := RPCURL c; Name := Name c;
     EnvironmentVars := v; ECDSAPrivateKey := ECDSAPrivateKey c;
     KeystorePath := KeystorePath c; KeystorePassword := KeystorePassword c |}.
Definition withECDSAPrivateKey (v : string) (c : Context) : Context :=
  {| AVSAddress := AVSAddress c; OperatorSetID := OperatorSetID c;
     ReleaseManager := ReleaseManager c; RPCURL := RPCURL c; Name := Name c;
     EnvironmentVars := EnvironmentVars c; ECDSAPrivateKey := v;
     KeystorePath := KeystorePath c; KeystorePassword := KeystorePassword c |}.
Definition withKeystorePath (v : string) (c : Context) : Context :=
  {| AVSAddress := AVSAddress c; OperatorSetID := OperatorSetID c;
     ReleaseManager := ReleaseManager c; RPCURL := RPCURL c; Name := Name c;
     EnvironmentVars := EnvironmentVars c; ECDSAPrivateKey := ECDSAPrivateKey c;
     KeystorePath := v; KeystorePassword := KeystorePassword c |}.
Definition withKeystorePassword (v : string) (c : Context) : Context :=
  {| AVSAddress := AVSAddress c; OperatorSetID := OperatorSetID c;
     ReleaseManager := ReleaseManager c; RPCURL := RPCURL c; Name := Name c;
     EnvironmentVars := EnvironmentVars c; ECDSAPrivateKey := ECDSAPrivateKey c;
     KeystorePath := KeystorePath c; KeystorePassword := v |}.

(** [encoding/json] on the configuration: [json.Unmarshal(data, &cfg)]
    and [json.MarshalIndent(cfg, "", "  ")]. *)
Class JSON : Type := {
  Unmarshal : list byte -> Config * option error;
  MarshalIndent : Config -> list byte * option error
}.

Section WithJSON.
Context {json : JSON}.

Definition GetConfigPath {W} (os : goos.OS W)
  : Traced W goos.Call (string * option error) :=
  '(homeDir, err) ← call goos.CallUserHomeDir (goos.UserHomeDir os);
  match err with
  | Some err =>
      mret ("", Some (wrapError ("failed to get home directory: " ++ Error err) err))
  | None =>
      let configDir := goos.Join os homeDir ".flickr" in
      err ← call (goos.CallMkdirAll configDir 493) (goos.MkdirAll os configDir 493);
      match err with
      | Some err =>
          mret ("", Some (wrapError ("failed to create config directory: " ++ Error err) err))
      | None => mret (goos.Join os configDir "config.json", None)
      end
  end.

Definition LoadConfig {W} (os : goos.OS W)
  : Traced W goos.Call (option Config * option error) :=
  '(configPath, err) ← GetConfigPath os;
  match err with
  | Some err => mret (None, Some err)
  | None =>
      '(data, err) ← call (goos.CallReadFile configPath) (goos.ReadFile os configPath);
      match err with
      | Some err =>
          if goos.IsNotExist os err then
            mret (Some {| CurrentContext := ""; Contexts := ∅ |}, None)
          else
            mret (None, Some (wrapError ("failed to read config file: " ++ Error err) err))
      | None =>
          match Unmarshal data with
          | (_, Some err) =>
              mret (None, Some (wrapError ("failed to parse config file: " ++ Error err) err))
          | (cfg, None) => mret (Some cfg, None)
          end
      end
  end.

Definition SaveConfig {W} (os : goos.OS W) (cfg : Config)
  : Traced W goos.Call (option error) :=
  '(configPath, err) ← GetConfigPath os;
  match err with
  | Some err => mret (Some err)
  | None =>
      match MarshalIndent cfg with
      | (_, Some err) =>
          mret (Some (wrapError ("failed to marshal config: " ++ Error err) err))
      | (data, None) =>
          err ← call (goos.CallWriteFile configPath data 420)
                  (goos.WriteFile os configPath data 420);
          match err with
          | Some err =>
              mret (Some (wrapError ("failed to write config file: " ++ Error err) err))
          | None => mret None
          end
      end
  end.

End WithJSON.

(** The signer settings of a context are consistent: not both a private
    key and a keystore, and no keystore password without a keystore. *)
Definition signerSettingsOK (c : Context) : Prop :=
  (ECDSAPrivateKey c = "" \/ KeystorePath c = "")
  /\ (KeystorePassword c <> "" -> KeystorePath c <> "").

(** The zero value [config.Context{}]. *)
Definition emptyContext : Context :=
  {| AVSAddress := ""; OperatorSetID := 0; ReleaseManager := ""; RPCURL := "";
     Name := ""; EnvironmentVars := ∅; ECDSAPrivateKey := "";
     KeystorePath := ""; KeystorePassword := "" |}.

End config.

(** [keystore.DecryptKey]: the key of an encrypted key file, with the
    address stored beside it. *)
Class Keystore {crypto : Crypto} : Type := {
  DecryptKey : list byte -> string -> option (PrivateKey * Address) * option error
}.

(** [common.HexToAddress], library code outside this repository. *)
Class HexAddress : Type := {
  HexToAddress : string -> Address
}.

(** ** Package [signer] *)
Module signer.
Section WithCrypto.
Context {crypto : Crypto}.

(** The [Signer] interface: a value of it is its method table. *)
Record Signer : Type := {
  Address_ : Address;
  SignTransaction : Transaction -> Z -> option Transaction * option error;
  SignMessage : list byte -> outcome (list byte * option error);
  PublicKey : PublicKeyT
}.

Record ECDSASigner : Type := {
  ecdsa_privateKey : PrivateKey;
  ecdsa_address : Address
}.

Record KeystoreSigner : Type := {
  keystore_privateKey : PrivateKey;
  keystore_address : Address
}.

Definition NewECDSASigner (privateKey : PrivateKey) : ECDSASigner :=
  let address := PubkeyToAddress (PublicKey_of privateKey) in
  {| ecdsa_privateKey := privateKey; ecdsa_address := address |}.

(** A [nil] key without an error would be dereferenced by
    [NewECDSASigner]. *)
Definition NewECDSASignerFromHex (hexKey : string)
  : outcome (option ECDSASigner * option error) :=
  let hexKey :=
    if (2 <=? String.length hexKey)%nat && String.eqb (substring 0 2 hexKey) "0x"
    then substring 2 (String.length hexKey - 2) hexKey
    else hexKey in
  match HexToECDSA hexKey with
  | (_, Some err) =>
      Returns (None, Some (wrapError ("invalid private key: " ++ Error err) err))
  | (None, None) => Panics
  | (Some privateKey, None) => Returns (Some (NewECDSASigner privateKey), None)
  end.

Definition ECDSASigner_Address (s : ECDSASigner) : Address := ecdsa_address s.

Definition ECDSASigner_SignTransaction (s : ECDSASigner)
    (tx : Transaction) (chainID : Z) : option Transaction * option error :=
  match SignTx tx chainID (ecdsa_privateKey s) with
  | (_, Some err) =>
      (None, Some (wrapError ("failed to sign transaction: " ++ Error err) err))
  | (signedTx, None) => (signedTx, None)
  end.

(** [sig[64] += 27] on a byte. *)
Definition add27 (v : byte) : byte :=
  match Byte.of_N ((Byte.to_N v + 27) mod 256) with
  | Some b => b
  | None => v
  end.

Definition ECDSASigner_SignMessage (s : ECDSASigner) (msg : list byte)
  : outcome (list byte * option error) :=
  let prefixedMsg := TextHash msg in
  match crypto_Sign prefixedMsg (ecdsa_privateKey s) with
  | (_, Some err) =>
      Returns ([], Some (wrapError ("failed to sign message: " ++ Error err) err))
  | (sig, None) =>
      match sig !! 64%nat with
      | None => Panics
      | Some v =>
          if (Byte.to_N v <? 27)%N
          then Returns (<[64%nat := add27 v]> sig, None)
          else Returns (sig, None)
      end
  end.

Definition ECDSASigner_PublicKey (s : ECDSASigner) : PublicKeyT :=
  PublicKey_of (ecdsa_privateKey s).

Definition KeystoreSigner_Address (s : KeystoreSigner) : Address :=
  keystore_address s.

Definition KeystoreSigner_SignTransaction (s : KeystoreSigner)
    (tx : Transaction) (chainID : Z) : option Transaction * option error :=
  match SignTx tx chainID (keystore_privateKey s) with
  | (_, Some err) =>
      (None, Some (wrapError ("failed to sign transaction: " ++ Error err) err))
  | (signedTx, None) => (signedTx, None)
  end.

Definition KeystoreSigner_SignMessage (s : KeystoreSigner) (msg : list byte)
  : outcome (list byte * option error) :=
  let ecdsaSigner :=
    {| ecdsa_privateKey := keystore_privateKey s;
       ecdsa_address := keystore_address s |} in
  ECDSASigner_SignMessage ecdsaSigner msg.

Definition KeystoreSigner_PublicKey (s : KeystoreSigner) : PublicKeyT :=
  PublicKey_of (keystore_privateKey s).

(** The two implementations of the interface. *)
Definition ECDSASigner_Signer (s : ECDSASigner) : Signer :=
  {| Address_ := ECDSASigner_Address s;
     SignTransaction := ECDSASigner_SignTransaction s;
     SignMessage := ECDSASigner_SignMessage s;
     PublicKey := ECDSASigner_PublicKey s |}.

Definition KeystoreSigner_Signer (s : KeystoreSigner) : Signer :=
  {| Address_ := KeystoreSigner_Address s;
     SignTransaction := KeystoreSigner_SignTransaction s;
     SignMessage := KeystoreSigner_SignMessage s;
     PublicKey := KeystoreSigner_PublicKey s |}.

Context {keystore : Keystore}.

(** A [nil] key without an error would be dereferenced. *)
Definition NewKeystoreSigner {W} (os : goos.OS W) (keystorePath password : string)
  : Traced W goos.Call (outcome (option KeystoreSigner * option error)) :=
  '(keyjson, err) ← call (goos.CallReadFile keystorePath) (goos.ReadFile os keystorePath);
  match err with
  | Some err =>
      mret (Returns (None, Some (wrapError ("failed to read keystore file: " ++ Error err) err)))
  | None =>
      match DecryptKey keyjson password with
      | (_, Some err) =>
          mret (Returns (None, Some (wrapError ("failed to decrypt keystore: " ++ Error err) err)))
      | (None, None) => mret Panics
      | (Some (privateKey, address), None) =>
          mret (Returns (Some {| keystore_privateKey := privateKey;
                                 keystore_address := address |}, None))
      end
  end.

(** A value of the interface type [Signer]: the [nil] interface, or a
    pointer of one of the two implementing types.  That pointer may
    itself be [nil], and the interface value that holds it is then not
    [nil]. *)
Inductive SignerValue : Type :=
| nilSigner
| ptrECDSASigner (p : option ECDSASigner)
| ptrKeystoreSigner (p : option KeystoreSigner).

(** [sig == nil] for an interface value. *)
Definition isNil (sig : SignerValue) : bool :=
  match sig with
  | nilSigner => true
  | _ => false
  end.

(** The method table behind an interface value.  There is none behind
    the [nil] interface, and none that can be used behind a [nil]
    pointer: every method of the two types reads a field of its
    receiver. *)
Definition methodsOf (sig : SignerValue) : option Signer :=
  match sig with
  | nilSigner => None
  | ptrECDSASigner p => option_map ECDSASigner_Signer p
  | ptrKeystoreSigner p => option_map KeystoreSigner_Signer p
  end.

(** Package-level [FromContext] (file [factory.go]).  The two
    constructors' results are returned through the interface type, so
    the pointer of a failed constructor arrives wrapped. *)
Definition FromContext {W} (os : goos.OS W) (ctx : config.Context)
  : Traced W goos.Call (outcome (SignerValue * option error)) :=
  if negb (String.eqb (config.ECDSAPrivateKey ctx) "") then
    match NewECDSASignerFromHex (config.ECDSAPrivateKey ctx) with
    | Returns (s, err) => mret (Returns (ptrECDSASigner s, err))
    | Panics => mret Panics
    end
  else if negb (String.eqb (config.KeystorePath ctx) "") then
    if String.eqb (config.KeystorePassword ctx) "" then
      mret (Returns (nilSigner, Some (errorString "keystore password is required")))
    else
      r ← NewKeystoreSigner os (config.KeystorePath ctx) (config.KeystorePassword ctx);
      match r with
      | Returns (s, err) => mret (Returns (ptrKeystoreSigner s, err))
      | Panics => mret Panics
      end
  else
    mret (Returns (nilSigner, Some (errorString "no signer configured in context"))).

End WithCrypto.
End signer.

(** ** Package [eth] *)
Module eth.
Section WithCrypto.
Context {crypto : Crypto}.

Record Artifact : Type := {
  Registry : string;
  Digest32 : list byte
}.

Record Release : Type := {
  Artifacts : list Artifact;
  UpgradeByTime : N
}.

(** The [ReleaseManagerClient] interface, over collaborator state [W]. *)
Record ReleaseManagerClient (W : Type) : Type := {
  GetLatestRelease : Address -> N -> W -> (Release * N * option error) * W;
  GetRelease : Address -> N -> N -> W -> (Release * option error) * W
}.

(** Types of the generated contract bindings. *)
Record OperatorSet : Type := { Avs : Address; Id : N }.

Record IReleaseManagerTypesArtifact : Type := {
  binding_Registry : string;
  binding_Digest : list byte
}.

Record IReleaseManagerTypesRelease : Type := {
  binding_Artifacts : list IReleaseManagerTypesArtifact;
  binding_UpgradeByTime : N
}.

(** [bind.TransactOpts] (the [Context] field carries no data). *)
Record TransactOpts : Type := {
  From : Address;
  Nonce : Z;
  GasLimit : N;
  GasPrice : Z;
  Signer : Address -> Transaction -> option Transaction * option error
}.

(** The calls a write operation makes to the ledger transport and to
    the contract binding. *)
Inductive Call : Type :=
| CallChainID
| CallPendingNonceAt (account : Address)
| CallSuggestGasPrice
| CallPublishMetadataURI (opts : TransactOpts) (operatorSet : OperatorSet) (uri : string)
| CallPublishRelease (opts : TransactOpts) (operatorSet : OperatorSet)
    (release : IReleaseManagerTypesRelease).

(** [ethclient.Client], as far as the write operations use it. *)
Record EthClient (W : Type) : Type := {
  ChainID : W -> (Z * option error) * W;
  PendingNonceAt : Address -> W -> (N * option error) * W;
  SuggestGasPrice : W -> (Z * option error) * W
}.

(** The write methods of the generated [ReleaseManager] binding. *)
Record RmContract (W : Type) : Type := {
  rm_PublishMetadataURI :
    TransactOpts -> OperatorSet -> string -> W -> (option Transaction * option error) * W;
  rm_PublishRelease :
    TransactOpts -> OperatorSet -> IReleaseManagerTypesRelease -> W ->
    (option Transaction * option error) * W
}.

Record Client (W : Type) : Type := {
  ethClient : EthClient W;
  rmContract : RmContract W;
  contractAddr : Address;
  rpcURL : string;
  signer_ : option signer.Signer
}.

(** [int64(nonce)] for a [uint64]. *)
Definition int64_of_uint64 (n : N) : Z :=
  let z := (Z.of_N n mod 2 ^ 64)%Z in
  if (z <? 2 ^ 63)%Z then z else (z - 2 ^ 64)%Z.

Definition PublishMetadataURI {W} (c : Client W) (avs : Address) (opSetID : N)
    (uri : string) (gasLimit : N)
  : Traced W Call (option Transaction * option error) :=
  match signer_ c with
  | None =>
      mret (None, Some (errorString "signer required for publishing metadata URI"))
  | Some sig =>
      '(chainID, err) ← call CallChainID (ChainID (ethClient c));
      match err with
      | Some err =>
          mret (None, Some (wrapError ("failed to get chain ID: " ++ Error err) err))
      | None =>
      '(nonce, err) ← call (CallPendingNonceAt (signer.Address_ sig))
                        (PendingNonceAt (ethClient c) (signer.Address_ sig));
      match err with
      | Some err =>
          mret (None, Some (wrapError ("failed to get nonce: " ++ Error err) err))
      | None =>
      '(gasPrice, err) ← call CallSuggestGasPrice (SuggestGasPrice (ethClient c));
      match err with
      | Some err =>
          mret (None, Some (wrapError ("failed to get gas price: " ++ Error err) err))
      | None =>
      let opts :=
        {| From := signer.Address_ sig;
           Nonce := int64_of_uint64 nonce;
           GasLimit := gasLimit;
           GasPrice := gasPrice;
           Signer := fun address tx =>
             if negb (Address_eqb address (signer.Address_ sig)) then
               (None, Some (errorString "unexpected signer address"))
             else signer.SignTransaction sig tx chainID |} in
      let operatorSet := {| Avs := avs; Id := opSetID |} in
      '(tx, err) ← call (CallPublishMetadataURI opts operatorSet uri)
                     (rm_PublishMetadataURI (rmContract c) opts operatorSet uri);
      match err with
      | Some err =>
          mret (None, Some (wrapError ("failed to publish metadata URI: " ++ Error err) err))
      | None => mret (tx, None)
      end end end end
  end.

Definition PushRelease {W} (c : Client W) (avs : Address) (opSetID : N)
    (artifacts : list Artifact) (upgradeByTime : N) (gasLimit : N)
  : Traced W Call (option Transaction * option error) :=
  match signer_ c with
  | None =>
      mret (None, Some (errorString "signer required for pushing releases"))
  | Some sig =>
      '(chainID, err) ← call CallChainID (ChainID (ethClient c));
      match err with
      | Some err =>
          mret (None, Some (wrapError ("failed to get chain ID: " ++ Error err) err))
      | None =>
      '(nonce, err) ← call (CallPendingNonceAt (signer.Address_ sig))
                        (PendingNonceAt (ethClient c) (signer.Address_ sig));
      match err with
      | Some err =>
          mret (None, Some (wrapError ("failed to get nonce: " ++ Error err) err))
      | None =>
      '(gasPrice, err) ← call CallSuggestGasPrice (SuggestGasPrice (ethClient c));
      match err with
      | Some err =>
          mret (None, Some (wrapError ("failed to get gas price: " ++ Error err) err))
      | None =>
      let opts :=
        {| From := signer.Address_ sig;
           Nonce := int64_of_uint64 nonce;
           GasLimit := gasLimit;
           GasPrice := gasPrice;
           Signer := fun address tx =>
             if negb (Address_eqb address (signer.Address_ sig)) then
               (None, Some (errorString "unexpected signer address"))
             else signer.SignTransaction sig tx chainID |} in
      let operatorSet := {| Avs := avs; Id := opSetID |} in
      let contractArtifacts :=
        map (fun artifact =>
               {| binding_Registry := Registry artifact;
                  binding_Digest := Digest32 artifact |}) artifacts in
      let release :=
        {| binding_Artifacts := contractArtifacts;
           binding_UpgradeByTime := upgradeByTime |} in
      '(tx, err) ← call (CallPublishRelease opts operatorSet release)
                     (rm_PublishRelease (rmContract c) opts operatorSet release);
      match err with
      | Some err =>
          mret (None, Some (wrapError ("failed to publish release: " ++ Error err) err))
      | None => mret (tx, None)
      end end end end
  end.

(** The signing callback's failure, by its name in the specification. *)
Definition UnexpectedSignerAddress : error :=
  errorString "unexpected signer address".

(** The callback of [opts] refuses every address but [sig]'s own: it
    returns no transaction and the unexpected-signer failure. *)
Definition rejects_foreign (sig : signer.Signer) (opts : TransactOpts) : Prop :=
  forall (address : Address) (tx : Transaction),
    address <> signer.Address_ sig ->
    Signer opts address tx = (None, Some UnexpectedSignerAddress).

(** *** The read operations *)

(** The read methods of the generated [ReleaseManager] binding.  The
    contract's [uint256] results arrive as non-negative [big.Int]s. *)
Record RmCaller (W : Type) : Type := {
  rm_GetLatestRelease :
    OperatorSet -> W -> (N * IReleaseManagerTypesRelease * option error) * W;
  rm_GetRelease :
    OperatorSet -> N -> W -> (IReleaseManagerTypesRelease * option error) * W;
  rm_GetMetadataURI : OperatorSet -> W -> (string * option error) * W;
  rm_GetTotalReleases : OperatorSet -> W -> (N * option error) * W;
  rm_GetLatestUpgradeByTime : OperatorSet -> W -> (N * option error) * W
}.

(** [x.Uint64()] of a non-negative [big.Int]: its low 64 bits. *)
Definition Uint64 (x : N) : N := (x mod 2 ^ 64)%N.

Definition convertRelease (contractRelease : IReleaseManagerTypesRelease) : Release :=
  {| UpgradeByTime := binding_UpgradeByTime contractRelease;
     Artifacts :=
       map (fun artifact =>
              {| Registry := binding_Registry artifact;
                 Digest32 := binding_Digest artifact |})
         (binding_Artifacts contractRelease) |}.

(** The zero value [Release{}]. *)
Definition zeroRelease : Release := {| Artifacts := []; UpgradeByTime := 0 |}.

(** The read methods of [Client] use its contract binding only; they
    are given its read half. *)
Definition Client_GetLatestRelease {W} (rmContract : RmCaller W)
    (avs : Address) (opSetID : N) (w : W) : (Release * N * option error) * W :=
  let operatorSet := {| Avs := avs; Id := opSetID |} in
  match rm_GetLatestRelease rmContract operatorSet w with
  | ((_, _, Some err), w') =>
      ((zeroRelease, 0%N,
        Some (wrapError ("failed to get latest release: " ++ Error err) err)), w')
  | ((releaseID, contractRelease, None), w') =>
      let release := convertRelease contractRelease in
      ((release, Uint64 releaseID, None), w')
  end.

Definition Client_GetRelease {W} (rmContract : RmCaller W)
    (avs : Address) (opSetID : N) (releaseID : N) (w : W)
  : (Release * option error) * W :=
  let operatorSet := {| Avs := avs; Id := opSetID |} in
  let releaseIDBig := releaseID in
  match rm_GetRelease rmContract operatorSet releaseIDBig w with
  | ((_, Some err), w') =>
      ((zeroRelease,
        Some (wrapError ("failed to get release from contract: " ++ Error err) err)), w')
  | ((contractRelease, None), w') =>
      let release := convertRelease contractRelease in
      ((release, None), w')
  end.

Definition Client_GetMetadataURI {W} (rmContract : RmCaller W)
    (avs : Address) (opSetID : N) (w : W) : (string * option error) * W :=
  let operatorSet := {| Avs := avs; Id := opSetID |} in
  match rm_GetMetadataURI rmContract operatorSet w with
  | ((_, Some err), w') =>
      (("", Some (wrapError ("failed to get metadata URI: " ++ Error err) err)), w')
  | ((uri, None), w') => ((uri, None), w')
  end.

(** The count is a [*big.Int]: [nil] on failure. *)
Definition Client_GetTotalReleases {W} (rmContract : RmCaller W)
    (avs : Address) (opSetID : N) (w : W) : (option N * option error) * W :=
  let operatorSet := {| Avs := avs; Id := opSetID |} in
  match rm_GetTotalReleases rmContract operatorSet w with
  | ((_, Some err), w') =>
      ((None, Some (wrapError ("failed to get total releases: " ++ Error err) err)), w')
  | ((count, None), w') => ((Some count, None), w')
  end.

Definition Client_GetLatestUpgradeByTime {W} (rmContract : RmCaller W)
    (avs : Address) (opSetID : N) (w : W) : (N * option error) * W :=
  let operatorSet := {| Avs := avs; Id := opSetID |} in
  match rm_GetLatestUpgradeByTime rmContract operatorSet w with
  | ((_, Some err), w') =>
      ((0%N, Some (wrapError ("failed to get latest upgrade by time: " ++ Error err) err)), w')
  | ((upgradeByTime, None), w') => ((upgradeByTime, None), w')
  end.

(** [*Client] implements [ReleaseManagerClient]. *)
Definition Client_ReleaseManagerClient {W} (rmContract : RmCaller W)
  : ReleaseManagerClient W :=
  {| GetLatestRelease := Client_GetLatestRelease rmContract;
     GetRelease := Client_GetRelease rmContract |}.

(** The three queries that precede a submission, in their order. *)
Definition queries (sig : signer.Signer) : list Call :=
  [CallChainID; CallPendingNonceAt (signer.Address_ sig); CallSuggestGasPrice].

(** The release that [PushRelease] hands to the binding for given
    artifacts reads back as this one. *)
Definition releaseOf (artifacts : list Artifact) (upgradeByTime : N) : Release :=
  {| Artifacts := artifacts; UpgradeByTime := upgradeByTime |}.

(** *** Chain defaults (file [defaults.go]) *)

Record DefaultContractAddresses : Type := {
  default_ReleaseManager : string
}.

Definition GetDefaultContractAddresses (chainID : N)
  : option DefaultContractAddresses * option error :=
  if (chainID =? 11155111)%N then
    (Some {| default_ReleaseManager := "0xd9Cb89F1993292dEC2F973934bC63B0f2A702776" |}, None)
  else if (chainID =? 31337)%N then
    (Some {| default_ReleaseManager := "0xd9Cb89F1993292dEC2F973934bC63B0f2A702776" |}, None)
  else if (chainID =? 1)%N then
    (Some {| default_ReleaseManager := "0x0000000000000000000000000000000000000000" |}, None)
  else
    (None, Some (errorString ("default contract addresses not found for chain ID "
                              ++ gofmt.Sprintf_d chainID))).

(** [ethclient.Dial] and the two methods used on the client it
    returns.  The library returns a client exactly when it returns no
    error; the chain id is a non-negative [big.Int]. *)
Record Network (W Conn : Type) : Type := {
  Dial : string -> W -> (Conn + error) * W;
  conn_ChainID : Conn -> W -> (N * option error) * W;
  conn_Close : Conn -> W -> unit * W
}.

Inductive NetCall (Conn : Type) : Type :=
| CallDial (rawurl : string) (client : option Conn)
| CallConnChainID (client : Conn)
| CallClose (client : Conn).
Arguments CallDial {Conn} rawurl client.
Arguments CallConnChainID {Conn} client.
Arguments CallClose {Conn} client.

Definition dialed {Conn} (r : Conn + error) : option Conn :=
  match r with inl client => Some client | inr _ => None end.

Definition GetChainID {W Conn} (net : Network W Conn) (rpcURL : string)
  : Traced W (NetCall Conn) (N * option error) :=
  r ← callr (fun r => CallDial rpcURL (dialed r)) (Dial net rpcURL);
  match r with
  | inr err =>
      mret (0%N, Some (wrapError ("failed to connect to Ethereum client: " ++ Error err) err))
  | inl client =>
      '(chainID, err) ← call (CallConnChainID client) (conn_ChainID net client);
      match err with
      | Some err =>
          _ ← call (CallClose client) (conn_Close net client);
          mret (0%N, Some (wrapError ("failed to get chain ID: " ++ Error err) err))
      | None =>
          _ ← call (CallClose client) (conn_Close net client);
          mret (Uint64 chainID, None)
      end
  end.

(** The zero value [common.Address{}]. *)
Definition zeroAddress : Address := repeat x00 20.

Definition GetReleaseManagerAddress {hexAddress : HexAddress} {W Conn}
    (net : Network W Conn) (rpcURL providedAddress : string)
  : Traced W (NetCall Conn) (Address * option error) :=
  if negb (String.eqb providedAddress "")
     && negb (String.eqb providedAddress "0x0000000000000000000000000000000000000000")
  then mret (HexToAddress providedAddress, None)
  else
    '(chainID, err) ← GetChainID net rpcURL;
    match err with
    | Some err =>
        mret (zeroAddress, Some (wrapError ("failed to get chain ID: " ++ Error err) err))
    | None =>
        match GetDefaultContractAddresses chainID with
        | (_, Some err) =>
            mret (zeroAddress,
                  Some (wrapError ("no default ReleaseManager for chain "
                                   ++ gofmt.Sprintf_d chainID ++ ": " ++ Error err) err))
        | (Some defaults, None) =>
            mret (HexToAddress (default_ReleaseManager defaults), None)
        | (None, None) => mret (zeroAddress, None)
        end
    end.

Record NetworkInfo : Type := {
  info_ChainID : N;
  info_ChainName : string;
  info_ReleaseManager : Address
}.

Definition getChainName (chainID : N) : string :=
  if (chainID =? 1)%N then "Ethereum Mainnet"
  else if (chainID =? 11155111)%N then "Sepolia Testnet"
  else if (chainID =? 31337)%N then "Local Network"
  else if (chainID =? 8453)%N then "Base Mainnet"
  else if (chainID =? 84532)%N then "Base Sepolia"
  else "Chain " ++ gofmt.Sprintf_d chainID.

Definition GetNetworkInfo {hexAddress : HexAddress} {W Conn}
    (net : Network W Conn) (rpcURL releaseManager : string)
  : Traced W (NetCall Conn) (option NetworkInfo * option error) :=
  r ← callr (fun r => CallDial rpcURL (dialed r)) (Dial net rpcURL);
  match r with
  | inr err =>
      mret (None, Some (wrapError ("failed to connect to Ethereum client: " ++ Error err) err))
  | inl client =>
      '(chainID, err) ← call (CallConnChainID client) (conn_ChainID net client);
      match err with
      | Some err =>
          _ ← call (CallClose client) (conn_Close net client);
          mret (None, Some (wrapError ("failed to get chain ID: " ++ Error err) err))
      | None =>
          let chainName := getChainName (Uint64 chainID) in
          '(rmAddr, err) ← GetReleaseManagerAddress net rpcURL releaseManager;
          match err with
          | Some err =>
              _ ← call (CallClose client) (conn_Close net client);
              mret (None, Some err)
          | None =>
              _ ← call (CallClose client) (conn_Close net client);
              mret (Some {| info_ChainID := chainID;
                            info_ChainName := chainName;
                            info_ReleaseManager := rmAddr |}, None)
          end
      end
  end.

(** The clients a trace opens and the clients it closes, in order. *)
Definition opened {Conn} (tr : list (NetCall Conn)) : list Conn :=
  omap (fun call => match call with CallDial _ client => client | _ => None end) tr.

Definition closed {Conn} (tr : list (NetCall Conn)) : list Conn :=
  omap (fun call => match call with CallClose client => Some client | _ => None end) tr.

(** The chain ids that have default addresses. *)
Definition knownChains : list N := [1; 11155111; 31337]%N.

End WithCrypto.
End eth.

(** ** Package [docker] *)
Module docker.

Record RunOptions : Type := {
  Name : string;
  Detached : bool;
  Env : gmap string string;
  Cmd : list string
}.

(** The [Docker] interface, over collaborator state [W]. *)
Record Docker (W : Type) : Type := {
  Pull : string -> W -> option error * W;
  Run : string -> RunOptions -> W -> option error * W
}.

(** The host that [Runner] shells out to: [exec.CommandContext(ctx, name,
    args...).CombinedOutput()], and the order in which the Go runtime
    yields the entries of a map to a [range] loop (not fixed by the
    language: it may depend on the state). *)
Record Host (W : Type) : Type := {
  CombinedOutput : string -> list string -> W -> (string * option error) * W;
  rangeEnv : gmap string string -> W -> list (string * string)
}.

Definition Runner_Pull {W} (h : Host W) (reference : string) (w : W)
  : option error * W :=
  match CombinedOutput h "docker" ["pull"; reference] w with
  | ((out, Some err), w') =>
      (Some (errorString ("docker pull failed: " ++ Error err
                          ++ String "010"%char EmptyString ++ out)), w')
  | ((_, None), w') => (None, w')
  end.

(** The argument vector that [Run] builds, the map yielding its
    entries in the order [entries]. *)
Definition runArgs (entries : list (string * string)) (reference : string)
    (opts : RunOptions) : list string :=
  let args := ["run"] in
  let args := if negb (String.eqb (Name opts) "")
              then (args ++ ["--name"; Name opts])%list else args in
  let args := if Detached opts then (args ++ ["-d"])%list else args in
  let args := fold_left
                (fun (args : list string) (kv : string * string) =>
                   (args ++ ["-e"; (fst kv ++ "=" ++ snd kv)%string])%list)
                entries args in
  let args := (args ++ [reference])%list in
  let args := if (0 <? length (Cmd opts))%nat then (args ++ Cmd opts)%list else args in
  args.

Definition Runner_Run {W} (h : Host W) (reference : string) (opts : RunOptions) (w : W)
  : option error * W :=
  let args := runArgs (rangeEnv h (Env opts) w) reference opts in
  match CombinedOutput h "docker" args w with
  | ((out, Some err), w') =>
      (Some (errorString ("docker run failed: " ++ Error err
                          ++ String "010"%char EmptyString ++ out)), w')
  | ((_, None), w') => (None, w')
  end.

(** [*Runner] implements [Docker]. *)
Definition Runner_Docker {W} (h : Host W) : Docker W :=
  {| Pull := Runner_Pull h; Run := Runner_Run h |}.

(** The flags that [Run] puts between ["run"] and the reference. *)
Definition nameFlags (opts : RunOptions) : list string :=
  if String.eqb (Name opts) "" then [] else ["--name"; Name opts].
Definition detachFlags (opts : RunOptions) : list string :=
  if Detached opts then ["-d"] else [].
Definition envFlags (entries : list (string * string)) : list string :=
  flat_map (fun kv : string * string => ["-e"; fst kv ++ "=" ++ snd kv]) entries.

End docker.

(** ** Package [controller] *)
Module controller.
Section WithCommon.
Context {common : Common}.

Record Controller (W : Type) : Type := {
  RM : eth.ReleaseManagerClient W;
  Docker : docker.Docker W
}.

Record RunConfig : Type := {
  AVS : Address;
  OperatorSetID : N;
  ReleaseID : option N;
  ReleaseManager : Address;
  RPCURL : string;
  Name : string;
  Detached : bool;
  Env : gmap string string;
  Cmd : list string
}.

Definition New {W} (rm : eth.ReleaseManagerClient W) (dockerRunner : docker.Docker W)
  : Controller W :=
  {| RM := rm; Docker := dockerRunner |}.

(** The calls [Execute] makes to its two collaborators. *)
Inductive Call : Type :=
| CallGetLatestRelease (avs : Address) (opSetID : N)
| CallGetRelease (avs : Address) (opSetID : N) (releaseID : N)
| CallPull (reference : string)
| CallRun (reference : string) (opts : docker.RunOptions).

(** A line feed, for the multi-line messages. *)
Definition nl : string := String "010"%char EmptyString.

(** The text of the failure for an operator set without releases. *)
Definition noReleasesAvailableText (avs : Address) (opSetID : N) : string :=
  "no releases available for this operator set" ++ nl ++
  nl ++
  "To push a release, run:" ++ nl ++
  "  flickr push --image <your-image>" ++ nl ++
  nl ++
  "Current configuration:" ++ nl ++
  "  AVS: " ++ Hex avs ++ nl ++
  "  Operator Set: " ++ gofmt.Sprintf_d opSetID.

Definition noReleasesFoundText : string :=
  "no releases found (the operator set may not have any releases yet)" ++ nl ++
  nl ++
  "To push a release, run:" ++ nl ++
  "  flickr push --image <your-image>".

(** [Execute] from the artifact validation on, once the release [rel]
    with id [relID] has been fetched. *)
Definition executeRelease {W} (c : Controller W) (cfg : RunConfig)
    (rel : eth.Release) (relID : N) : Traced W Call (option error) :=
  match eth.Artifacts rel with
  | [] => mret (Some (errorString "no artifacts in release"))
  | art :: _ =>
      let digest := ref.Digest32ToSha256String (eth.Digest32 art) in
      match ref.BuildReference (eth.Registry art) digest with
      | (_, Some err) =>
          mret (Some (wrapError ("failed to build reference: " ++ Error err) err))
      | (reference, None) =>
          err ← call (CallPull reference) (docker.Pull (Docker c) reference);
          match err with
          | Some err =>
              mret (Some (wrapError ("failed to pull image: " ++ Error err) err))
          | None =>
              let env : gmap string string :=
                <["AVS_ADDRESS" := Hex (AVS cfg)]>
                (<["OPERATOR_SET_ID" := gofmt.Sprintf_d (OperatorSetID cfg)]>
                (<["RELEASE_ID" := gofmt.Sprintf_d relID]>
                (<["UPGRADE_BY_TIME" := gofmt.Sprintf_d (eth.UpgradeByTime rel)]> ∅))) in
              let env := map_fold (fun k v env => <[k := v]> env) env (Env cfg) in
              let runOpts :=
                {| docker.Name := Name cfg;
                   docker.Detached := Detached cfg;
                   docker.Env := env;
                   docker.Cmd := Cmd cfg |} in
              err ← call (CallRun reference runOpts)
                      (docker.Run (Docker c) reference runOpts);
              match err with
              | Some err =>
                  mret (Some (wrapError ("failed to run container: " ++ Error err) err))
              | None => mret None
              end
          end
      end
  end.

Definition Execute {W} (c : Controller W) (cfg : RunConfig)
  : Traced W Call (option error) :=
  match ReleaseID cfg with
  | None =>
      '(rel, relID, err) ←
        call (CallGetLatestRelease (AVS cfg) (OperatorSetID cfg))
          (eth.GetLatestRelease (RM c) (AVS cfg) (OperatorSetID cfg));
      match err with
      | Some err =>
          let errMsg := Error err in
          if gostrings.Contains errMsg "arithmetic underflow"
             || gostrings.Contains errMsg "NoReleases" then
            mret (Some (errorString
                          (noReleasesAvailableText (AVS cfg) (OperatorSetID cfg))))
          else if gostrings.Contains errMsg "array out-of-bounds" then
            mret (Some (errorString noReleasesFoundText))
          else
            mret (Some (wrapError ("failed to get latest release: " ++ Error err) err))
      | None => executeRelease c cfg rel relID
      end
  | Some releaseID =>
      '(rel, err) ←
        call (CallGetRelease (AVS cfg) (OperatorSetID cfg) releaseID)
          (eth.GetRelease (RM c) (AVS cfg) (OperatorSetID cfg) releaseID);
      match err with
      | Some err =>
          let errMsg := Error err in
          if gostrings.Contains errMsg "array out-of-bounds" then
            mret (Some (errorString
                          ("release ID " ++ gofmt.Sprintf_d releaseID ++ " does not exist")))
          else
            mret (Some (wrapError
                          ("failed to get release " ++ gofmt.Sprintf_d releaseID ++ ": "
                           ++ Error err) err))
      | None => executeRelease c cfg rel releaseID
      end
  end.

(** The failures of [Execute] that the specification names. *)
Definition NoReleasesAvailable (avs : Address) (opSetID : N) : error :=
  errorString (noReleasesAvailableText avs opSetID).
Definition NoArtifactsInRelease : error :=
  errorString "no artifacts in release".

(** The remediation command the messages give. *)
Definition remediationCommand : string := "flickr push --image <your-image>".

(** *** Vocabulary for the properties *)

(** What release resolution answers in state [w]: the ledger call that
    [Execute] makes first, with the release id it goes on with. *)
Definition resolve {W} (c : Controller W) (cfg : RunConfig) (w : W)
  : (eth.Release * N * option error) * W :=
  match ReleaseID cfg with
  | None => eth.GetLatestRelease (RM c) (AVS cfg) (OperatorSetID cfg) w
  | Some releaseID =>
      let '((rel, err), w') :=
        eth.GetRelease (RM c) (AVS cfg) (OperatorSetID cfg) releaseID w in
      ((rel, releaseID, err), w')
  end.

Definition resolutionCall (cfg : RunConfig) : Call :=
  match ReleaseID cfg with
  | None => CallGetLatestRelease (AVS cfg) (OperatorSetID cfg)
  | Some releaseID => CallGetRelease (AVS cfg) (OperatorSetID cfg) releaseID
  end.

(** The text of a ledger failure says that no release exists yet. *)
Definition saysNoReleases (err : error) : bool :=
  gostrings.Contains (Error err) "arithmetic underflow"
  || gostrings.Contains (Error err) "NoReleases".

Definition isRuntimeCall (call : Call) : bool :=
  match call with
  | CallPull _ | CallRun _ _ => true
  | _ => false
  end.

(** A message gives the remediation command and echoes the operator-set key. *)
Definition guidesOperator (avs : Address) (opSetID : N) (msg : string) : bool :=
  gostrings.Contains msg remediationCommand
  && gostrings.Contains msg (Hex avs)
  && gostrings.Contains msg (gofmt.Sprintf_d opSetID).

(** The four always-injected variables. *)
Definition fixedEnv (cfg : RunConfig) (relID upgradeByTime : N) : gmap string string :=
  {[ "AVS_ADDRESS" := Hex (AVS cfg);
     "OPERATOR_SET_ID" := gofmt.Sprintf_d (OperatorSetID cfg);
     "RELEASE_ID" := gofmt.Sprintf_d relID;
     "UPGRADE_BY_TIME" := gofmt.Sprintf_d upgradeByTime ]}.

(** The environment as the specification words it: the union of the
    fixed variables and the caller's, the caller's winning on collision. *)
Definition unionEnv (cfg : RunConfig) (relID upgradeByTime : N) : gmap string string :=
  Env cfg ∪ fixedEnv cfg relID upgradeByTime.

(** The reference and the run options built from one artifact. *)
Definition referenceOf (art : eth.Artifact) : string :=
  fst (ref.BuildReference (eth.Registry art)
         (ref.Digest32ToSha256String (eth.Digest32 art))).

Definition runOptionsOf (cfg : RunConfig) (relID upgradeByTime : N) : docker.RunOptions :=
  {| docker.Name := Name cfg;
     docker.Detached := Detached cfg;
     docker.Env := unionEnv cfg relID upgradeByTime;
     docker.Cmd := Cmd cfg |}.

End WithCommon.
End controller.

(** ** Package [context] of the commands: [flickr context set] *)
Module contextcmd.
Import config.

(** What the accessors of [cli.Context] return for the flags of the
    command: [c.String], [c.Uint64] with [c.IsSet], [c.StringSlice]. *)
Record SetFlags : Type := {
  flag_avs_address : string;
  flag_operator_set_id : N;
  flag_operator_set_id_IsSet : bool;
  flag_rpc_url : string;
  flag_release_manager : string;
  flag_name : string;
  flag_env : list string;
  flag_ecdsa_private_key : string;
  flag_keystore_path : string;
  flag_keystore_password : string
}.

(** The context under update, a pointer that may be [nil], with the
    [updated] flag. *)
Definition UpdateState : Type := option Context * bool.

(** A step of the update ends in a new state, in an error that is
    returned, or in a panic. *)
Definition andThen {A B} (m : outcome (A + error)) (k : A -> outcome (B + error))
  : outcome (B + error) :=
  match m with
  | Returns (inl a) => k a
  | Returns (inr e) => Returns (inr e)
  | Panics => Panics
  end.

(** [if cond { ctx.field = ...; updated = true }]: the assignment
    dereferences the context. *)
Definition assignIf (cond : bool) (f : Context -> Context) (st : UpdateState)
  : outcome (UpdateState + error) :=
  if cond then
    match fst st with
    | Some ctx => Returns (inl (Some (f ctx), true))
    | None => Panics
    end
  else Returns (inl st).

(** The loop over the [--env] flags. *)
Fixpoint setEnvironmentVars (envFlags : list string) (vars : gmap string string)
  : gmap string string + error :=
  match envFlags with
  | [] => inl vars
  | env :: rest =>
      match gostrings.SplitN_2 env "=" with
      | [key; value] => setEnvironmentVars rest (<[key := value]> vars)
      | _ => inr (errorString ("invalid env format: " ++ env ++ " (expected KEY=VALUE)"))
      end
  end.

(** An entry as it is written on the command line: [KEY=VALUE]. *)
Definition keyValue (kv : string * string) : string := fst kv ++ "=" ++ snd kv.

(** [uint32(id)] *)
Definition uint32_of_uint64 (id : N) : N := (id mod 2 ^ 32)%N.

(** The part of [contextSetAction] between the lookup of the current
    context and the check of [updated]: the flags are applied in the
    order of the source. *)
Definition applySetFlags (flags : SetFlags) (ctx : option Context)
  : outcome (UpdateState + error) :=
  let st : UpdateState := (ctx, false) in
  andThen (assignIf (negb (String.eqb (flag_avs_address flags) ""))
             (withAVSAddress (flag_avs_address flags)) st) (fun st =>
  andThen (assignIf (flag_operator_set_id_IsSet flags)
             (withOperatorSetID (uint32_of_uint64 (flag_operator_set_id flags))) st) (fun st =>
  andThen (assignIf (negb (String.eqb (flag_rpc_url flags) ""))
             (withRPCURL (flag_rpc_url flags)) st) (fun st =>
  andThen (assignIf (negb (String.eqb (flag_release_manager flags) ""))
             (withReleaseManager (flag_release_manager flags)) st) (fun st =>
  andThen (assignIf (negb (String.eqb (flag_name flags) ""))
             (withName (flag_name flags)) st) (fun st =>
  andThen (if (0 <? length (flag_env flags))%nat then
             match fst st with
             | None => Panics
             | Some ctx =>
                 match setEnvironmentVars (flag_env flags) (EnvironmentVars ctx) with
                 | inl vars => Returns (inl (Some (withEnvironmentVars vars ctx), true))
                 | inr e => Returns (inr e)
                 end
             end
           else Returns (inl st)) (fun st =>
  andThen (assignIf (negb (String.eqb (flag_ecdsa_private_key flags) ""))
             (fun ctx =>
                withKeystorePassword ""
                  (withKeystorePath ""
                     (withECDSAPrivateKey (flag_ecdsa_private_key flags) ctx))) st) (fun st =>
  andThen (assignIf (negb (String.eqb (flag_keystore_path flags) ""))
             (fun ctx =>
                withECDSAPrivateKey ""
                  (withKeystorePath (flag_keystore_path flags) ctx)) st) (fun st =>
  if negb (String.eqb (flag_keystore_password flags) "") then
    match fst st with
    | None => Panics
    | Some ctx =>
        if String.eqb (KeystorePath ctx) "" then
          Returns (inr (errorString "keystore-password requires keystore-path to be set"))
        else
          Returns (inl (Some (withKeystorePassword (flag_keystore_password flags) ctx),
                        true))
    end
  else Returns (inl st))))))))).

Section WithJSON.
Context {json : JSON}.

(** [contextSetAction]; the calls to the logger are left out, they
    return nothing and change nothing here. *)
Definition contextSetAction {W} (os : goos.OS W) (flags : SetFlags)
  : Traced W goos.Call (outcome (option error)) :=
  '(cfg, err) ← LoadConfig os;
  match err, cfg with
  | Some err, _ =>
      mret (Returns (Some (wrapError ("failed to load config: " ++ Error err) err)))
  | None, None => mret Panics
  | None, Some cfg =>
      if String.eqb (CurrentContext cfg) "" then
        mret (Returns (Some (errorString "no current context set")))
      else
        match Contexts cfg !! CurrentContext cfg with
        | None =>
            mret (Returns (Some (errorString ("current context '" ++ CurrentContext cfg
                                              ++ "' not found"))))
        | Some ctx =>
            match applySetFlags flags ctx with
            | Panics => mret Panics
            | Returns (inr e) => mret (Returns (Some e))
            | Returns (inl (ctx, updated)) =>
                if negb updated then
                  mret (Returns (Some (errorString "no values provided to update")))
                else
                  let cfg :=
                    {| CurrentContext := CurrentContext cfg;
                       Contexts := <[CurrentContext cfg := ctx]> (Contexts cfg) |} in
                  err ← SaveConfig os cfg;
                  match err with
                  | Some err =>
                      mret (Returns (Some (wrapError ("failed to save config: "
                                                      ++ Error err) err)))
                  | None =>
                      let text := "Context '" ++ CurrentContext cfg ++ "' updated"
                                  ++ String "010"%char EmptyString in
                      _ ← call (goos.CallWriteStdout text) (goos.WriteStdout os text);
                      mret (Returns None)
                  end
            end
        end
  end.


Definition isWriteFile (call : goos.Call) : bool :=
  match call with goos.CallWriteFile _ _ _ => true | _ => false end.

End WithJSON.
End contextcmd.

(** ** Test doubles of the controller tests and sample libraries *)
Module controller_test.

(** [mockRM]: a ledger client that answers from its own fields. *)
Record mockRM : Type := {
  latest : eth.Release;
  latestID : N;
  rel : eth.Release;
  err : option error;
  latestErr : option error
}.

(** The zero value [eth.Release{}]. *)
Definition zeroRelease : eth.Release :=
  {| eth.Artifacts := []; eth.UpgradeByTime := 0 |}.

Definition mockRM_client {W} (m : mockRM) : eth.ReleaseManagerClient W :=
  {| eth.GetLatestRelease := fun avs opSetID w =>
       match latestErr m with
       | Some e => ((zeroRelease, 0%N, Some e), w)
       | None => ((latest m, latestID m, None), w)
       end;
     eth.GetRelease := fun avs opSetID releaseID w =>
       match err m with
       | Some e => ((zeroRelease, Some e), w)
       | None => ((rel m, None), w)
       end |}.

(** [captureDocker]: a runtime that remembers what it was asked. *)
Record captureDocker : Type := {
  pulled : string;
  ran : string;
  env : gmap string string;
  runOpts : option docker.RunOptions;
  pullErr : option error;
  runErr : option error
}.

Definition captureDocker_docker : docker.Docker captureDocker :=
  {| docker.Pull := fun reference d =>
       (pullErr d,
        {| pulled := reference; ran := ran d; env := env d; runOpts := runOpts d;
           pullErr := pullErr d; runErr := runErr d |});
     docker.Run := fun reference opts d =>
       (runErr d,
        {| pulled := pulled d; ran := reference; env := docker.Env opts;
           runOpts := Some opts; pullErr := pullErr d; runErr := runErr d |}) |}.

Definition newCaptureDocker : captureDocker :=
  {| pulled := ""; ran := ""; env := ∅; runOpts := None;
     pullErr := None; runErr := None |}.

(** A rendering of addresses for the examples: ["0x"] and the plain
    hexadecimal digits (go-ethereum adds a checksum by letter case). *)
Definition plainHex : Common :=
  {| Hex := fun a => "0x" ++ gohex.EncodeToString a |}.

(** A stand-in for the cryptographic library in the examples: keys are
    numbers, a transaction is its payload, and a signature is 64 bytes
    followed by the parity of the key. *)
Definition toyCrypto : Crypto :=
  {| PrivateKey := N;
     PublicKeyT := N;
     Transaction := list byte;
     PublicKey_of := fun k => k;
     PubkeyToAddress := fun k => repeat (if N.even k then x00 else x01) 20;
     HexToECDSA := fun s => (Some (N.of_nat (String.length s)), None);
     SignTx := fun tx chainID k => (Some (tx ++ [x01])%list, None);
     TextHash := fun msg => msg;
     crypto_Sign := fun h k =>
       (repeat xab 64 ++ [if N.even k then x00 else x01], None)%list |}.

(** The address [0x1234567890123456789012345678901234567890] of the tests. *)
Definition testAVS : Address :=
  [x12; x34; x56; x78; x90; x12; x34; x56; x78; x90;
   x12; x34; x56; x78; x90; x12; x34; x56; x78; x90].

(** The ledger failure of a latest-release query on an operator set
    without releases, as the pull tests quote it. *)
Definition underflowError : error :=
  errorString "execution reverted: panic: arithmetic underflow or overflow (0x11)".

Definition mockLatest (latest : eth.Release) (latestID : N) : mockRM :=
  {| latest := latest; latestID := latestID; rel := zeroRelease;
     err := None; latestErr := None |}.

Definition mockFailing (e : error) : mockRM :=
  {| latest := zeroRelease; latestID := 0; rel := zeroRelease;
     err := Some e; latestErr := Some e |}.

Definition controllerOf (m : mockRM) : controller.Controller captureDocker :=
  controller.New (mockRM_client m) captureDocker_docker.

(** The release of [TestController_Execute_LatestRelease]. *)
Definition latestRelease : eth.Release :=
  {| eth.Artifacts :=
       [ {| eth.Registry := "ghcr.io/org/image"; eth.Digest32 := repeat xaa 32 |} ];
     eth.UpgradeByTime := 123456 |}.

(** The release of [TestController_Execute_NoArtifacts]. *)
Definition emptyRelease : eth.Release :=
  {| eth.Artifacts := []; eth.UpgradeByTime := 123 |}.

(** The release of [TestController_Execute_MultipleArtifacts]. *)
Definition firstArtifact : eth.Artifact :=
  {| eth.Registry := "first.io/image"; eth.Digest32 := x11 :: repeat x00 31 |}.
Definition secondArtifact : eth.Artifact :=
  {| eth.Registry := "second.io/image"; eth.Digest32 := x22 :: repeat x00 31 |}.
Definition multiRelease : eth.Release :=
  {| eth.Artifacts := [firstArtifact; secondArtifact]; eth.UpgradeByTime := 200 |}.

(** A runtime whose pull fails. *)
Definition failingPull (e : error) : captureDocker :=
  {| pulled := ""; ran := ""; env := ∅; runOpts := None;
     pullErr := Some e; runErr := None |}.

(** The release of [TestController_Execute_RegistryWithDigest]. *)
Definition qualifiedArtifact : eth.Artifact :=
  {| eth.Registry := "ghcr.io/org/image@sha256:cccc"; eth.Digest32 := repeat x00 32 |}.
Definition qualifiedRelease : eth.Release :=
  {| eth.Artifacts := [qualifiedArtifact]; eth.UpgradeByTime := 100 |}.

Definition cfgWith (releaseID : option N) (env : gmap string string)
  : controller.RunConfig :=
  {| controller.AVS := testAVS;
     controller.OperatorSetID := 1;
     controller.ReleaseID := releaseID;
     controller.ReleaseManager := testAVS;
     controller.RPCURL := "https://eth.example.com";
     controller.Name := "test-container";
     controller.Detached := true;
     controller.Env := env;
     controller.Cmd := [] |}.

End controller_test.

(** ** Sample ledger client for the write operations *)
Module eth_test.
#[local] Existing Instance controller_test.toyCrypto.

Definition sampleSigner : signer.Signer :=
  signer.ECDSASigner_Signer (signer.NewECDSASigner 7%N).

(** A transport that answers every query. *)
Definition answeringTransport : eth.EthClient unit :=
  {| eth.ChainID := fun w => ((31337%Z, None), w);
     eth.PendingNonceAt := fun _ w => ((0%N, None), w);
     eth.SuggestGasPrice := fun w => ((1000000000%Z, None), w) |}.

(** A contract binding that asks the callback of the options to sign an
    empty payload on behalf of [presented], and returns what it says. *)
Definition presenting (presented : Address) : eth.RmContract unit :=
  {| eth.rm_PublishMetadataURI := fun opts _ _ w => (eth.Signer opts presented [], w);
     eth.rm_PublishRelease := fun opts _ _ w => (eth.Signer opts presented [], w) |}.

Definition sampleClient (presented : Address) : eth.Client unit :=
  {| eth.ethClient := answeringTransport;
     eth.rmContract := presenting presented;
     eth.contractAddr := controller_test.testAVS;
     eth.rpcURL := "http://localhost:8545";
     eth.signer_ := Some sampleSigner |}.

(** An address that is not the sample signer's. *)
Definition foreignAddress : Address := repeat x00 20.

(** A transport whose nonce query fails. *)
Definition nonceFailingTransport : eth.EthClient unit :=
  {| eth.ChainID := fun w => ((31337%Z, None), w);
     eth.PendingNonceAt := fun _ w => ((0%N, Some (errorString "connection refused")), w);
     eth.SuggestGasPrice := fun w => ((1000000000%Z, None), w) |}.

Definition nonceFailingClient : eth.Client unit :=
  {| eth.ethClient := nonceFailingTransport;
     eth.rmContract := presenting foreignAddress;
     eth.contractAddr := controller_test.testAVS;
     eth.rpcURL := "http://localhost:8545";
     eth.signer_ := Some sampleSigner |}.

(** A read binding whose every call fails with [e]. *)
Definition failingCaller {W} (e : error) : eth.RmCaller W :=
  {| eth.rm_GetLatestRelease := fun _ w =>
       ((0%N, {| eth.binding_Artifacts := []; eth.binding_UpgradeByTime := 0 |},
         Some e), w);
     eth.rm_GetRelease := fun _ _ w =>
       (({| eth.binding_Artifacts := []; eth.binding_UpgradeByTime := 0 |}, Some e), w);
     eth.rm_GetMetadataURI := fun _ w => (("", Some e), w);
     eth.rm_GetTotalReleases := fun _ w => ((0%N, Some e), w);
     eth.rm_GetLatestUpgradeByTime := fun _ w => ((0%N, Some e), w) |}.

(** A client without a signer. *)
Definition readOnlyClient : eth.Client unit :=
  {| eth.ethClient := answeringTransport;
     eth.rmContract := presenting foreignAddress;
     eth.contractAddr := controller_test.testAVS;
     eth.rpcURL := "http://localhost:8545";
     eth.signer_ := None |}.

End eth_test.

(** ** Sample operating system and key store *)
Module signer_test.
#[local] Existing Instance controller_test.toyCrypto.

(** Files held in a map from names to contents; every directory exists. *)
Definition memOS : goos.OS (gmap string (list byte)) :=
  {| goos.UserHomeDir := fun w => (("/home/operator", None), w);
     goos.MkdirAll := fun _ _ w => (None, w);
     goos.ReadFile := fun name w =>
       match w !! name with
       | Some data => ((data, None), w)
       | None =>
           (([], Some (errorString ("open " ++ name ++ ": no such file or directory"))), w)
       end;
     goos.WriteFile := fun name data _ w => (None, <[name := data]> w);
     goos.WriteStdout := fun _ w => (tt, w);
     goos.IsNotExist := fun e =>
       gostrings.Contains (Error e) "no such file or directory";
     goos.Join := fun a b => a ++ "/" ++ b |}.

(** A key store that opens with the password ["secret"]: the key is
    the length of the file. *)
Definition toyKeystore : Keystore :=
  {| DecryptKey := fun keyjson password =>
       if String.eqb password "secret"
       then (Some (N.of_nat (length keyjson), repeat x02 20), None)
       else (None, Some (errorString "could not decrypt key with given password")) |}.

Definition keystoreContext : config.Context :=
  {| config.AVSAddress := ""; config.OperatorSetID := 0;
     config.ReleaseManager := ""; config.RPCURL := ""; config.Name := "";
     config.EnvironmentVars := ∅; config.ECDSAPrivateKey := "";
     config.KeystorePath := "/keys/operator.json";
     config.KeystorePassword := "secret" |}.

Definition privateKeyContext : config.Context :=
  {| config.AVSAddress := ""; config.OperatorSetID := 0;
     config.ReleaseManager := ""; config.RPCURL := ""; config.Name := "";
     config.EnvironmentVars := ∅; config.ECDSAPrivateKey := "0xac0974be";
     config.KeystorePath := "/keys/operator.json";
     config.KeystorePassword := "secret" |}.

(** A stand-in for the JSON codec: every file decodes to the
    configuration with the one context ["default"], current and empty;
    a configuration is encoded as the name of its current context. *)
Definition toyJSON : config.JSON :=
  {| config.Unmarshal := fun _ =>
       ({| config.CurrentContext := "default";
           config.Contexts := {[ "default" := Some config.emptyContext ]} |}, None);
     config.MarshalIndent := fun cfg =>
       (map byte_of_ascii (list_ascii_of_string (config.CurrentContext cfg)), None) |}.

(** A file system that holds a configuration file. *)
Definition configured : gmap string (list byte) :=
  {[ "/home/operator/.flickr/config.json" := [] ]}.

(** No flag given. *)
Definition noFlags : contextcmd.SetFlags :=
  {| contextcmd.flag_avs_address := ""; contextcmd.flag_operator_set_id := 0;
     contextcmd.flag_operator_set_id_IsSet := false; contextcmd.flag_rpc_url := "";
     contextcmd.flag_release_manager := ""; contextcmd.flag_name := "";
     contextcmd.flag_env := []; contextcmd.flag_ecdsa_private_key := "";
     contextcmd.flag_keystore_path := ""; contextcmd.flag_keystore_password := "" |}.

(** [--keystore-path /keys/operator.json --env MODE=a=b]. *)
Definition keystoreFlags : contextcmd.SetFlags :=
  {| contextcmd.flag_avs_address := ""; contextcmd.flag_operator_set_id := 0;
     contextcmd.flag_operator_set_id_IsSet := false; contextcmd.flag_rpc_url := "";
     contextcmd.flag_release_manager := ""; contextcmd.flag_name := "";
     contextcmd.flag_env := ["MODE=a=b"]; contextcmd.flag_ecdsa_private_key := "";
     contextcmd.flag_keystore_path := "/keys/operator.json";
     contextcmd.flag_keystore_password := "" |}.

End signer_test.

(** ** Sample network and host *)
Module net_test.

(** A network on which every endpoint answers with chain id 31337;
    the state counts the clients handed out, and a client is its number. *)
Definition localNetwork : eth.Network nat nat :=
  {| eth.Dial := fun _ w => (inl w, S w);
     eth.conn_ChainID := fun _ w => ((31337%N, None), w);
     eth.conn_Close := fun _ w => (tt, w) |}.

(** Addresses are parsed as the bytes of the text (go-ethereum decodes
    the hexadecimal digits). *)
Definition textAddress : HexAddress :=
  {| HexToAddress := fun s => map (fun c => byte_of_ascii c) (list_ascii_of_string s) |}.

(** A host on which every command succeeds silently and map entries
    come in the order of [map_to_list]; the state is the list of the
    commands run. *)
Definition quietHost : docker.Host (list (list string)) :=
  {| docker.CombinedOutput := fun name args w => (("", None), (w ++ [name :: args])%list);
     docker.rangeEnv := fun m _ => map_to_list m |}.

(** A host on which every command fails with the output [out]. *)
Definition brokenHost (out : string) : docker.Host unit :=
  {| docker.CombinedOutput := fun _ _ w => ((out, Some (errorString "exit status 1")), w);
     docker.rangeEnv := fun m _ => map_to_list m |}.

Definition sampleOptions : docker.RunOptions :=
  {| docker.Name := "avs"; docker.Detached := true;
     docker.Env := {[ "RELEASE_ID" := "7" ]}; docker.Cmd := ["serve"] |}.

End net_test.

(** * Properties *)

(** ** Strings *)
Module gostrings_facts.
Import gostrings.

Lemma HasPrefix_app (p s : string) : HasPrefix (p ++ s) p = true.
Proof.
  induction p as [|c p IH]; simpl.
  - reflexivity.
  - rewrite Ascii.eqb_refl. exact IH.
Qed.

Lemma Contains_here (s sub : string) : Contains (sub ++ s) sub = true.
Proof.
  destruct sub as [|c sub]; [destruct s; reflexivity |].
  simpl. rewrite Ascii.eqb_refl, HasPrefix_app. reflexivity.
Qed.

Lemma HasPrefix_refl (s : string) : HasPrefix s s = true.
Proof.
  induction s as [|c s IH]; simpl; [reflexivity | rewrite Ascii.eqb_refl; exact IH].
Qed.

Lemma Contains_refl (s : string) : Contains s s = true.
Proof.
  destruct s as [|c s]; [reflexivity |].
  cbn [Contains]. rewrite HasPrefix_refl. reflexivity.
Qed.

Lemma Contains_app_r (p s sub : string) :
  Contains s sub = true -> Contains (p ++ s) sub = true.
Proof.
  intros Hs. induction p as [|c p IH]; simpl.
  - exact Hs.
  - destruct (HasPrefix (String c (p ++ s)) sub); [reflexivity | exact IH].
Qed.

Lemma Contains_middle (p s sub : string) : Contains (p ++ sub ++ s) sub = true.
Proof. apply Contains_app_r, Contains_here. Qed.

Lemma Contains_nonempty (s sub : string) :
  sub <> "" -> Contains s sub = true -> s <> "".
Proof.
  intros Hsub Hc ->. destruct sub; [congruence | discriminate Hc].
Qed.

Lemma length_append (s t : string) :
  String.length (s ++ t) = String.length s + String.length t.
Proof. induction s as [|c s IH]; simpl; [reflexivity | rewrite IH; reflexivity]. Qed.

Lemma length_ToLower (s : string) : String.length (ToLower s) = String.length s.
Proof. induction s as [|c s IH]; simpl; congruence. Qed.

End gostrings_facts.

(** ** Reference resolver *)
Module ref_facts.
Import gostrings gostrings_facts ref.

Lemma length_EncodeToString (d : list byte) :
  String.length (gohex.EncodeToString d) = 2 * length d.
Proof.
  induction d as [|v d IH]; simpl; [reflexivity | rewrite IH; lia].
Qed.

(** Each byte becomes its high then its low digit, and lowering the
    case leaves both as they are. *)
Lemma hex_pair_lower (v : byte) :
  toLowerByte (gohex.hexchar (N.shiftr (Byte.to_N v) 4))
    = gohex.lower_hex_digit (Byte.to_N v / 16)
  /\ toLowerByte (gohex.hexchar (N.land (Byte.to_N v) 15))
    = gohex.lower_hex_digit (Byte.to_N v mod 16).
Proof. destruct v; split; vm_compute; reflexivity. Qed.

Lemma get_lower_hex (d : list byte) :
  forall (i : nat) (b : byte),
    d !! i = Some b ->
    String.get (2 * i) (ToLower (gohex.EncodeToString d))
      = Some (gohex.lower_hex_digit (Byte.to_N b / 16))
    /\ String.get (2 * i + 1) (ToLower (gohex.EncodeToString d))
      = Some (gohex.lower_hex_digit (Byte.to_N b mod 16)).
Proof.
  induction d as [|v d IH]; intros i b Hi.
  - discriminate Hi.
  - destruct i as [|i].
    + injection Hi as ->. simpl.
      destruct (hex_pair_lower b) as [-> ->]. split; reflexivity.
    + replace (2 * S i) with (S (S (2 * i))) by lia.
      replace (S (S (2 * i)) + 1) with (S (S (2 * i + 1))) by lia.
      simpl in Hi |- *. exact (IH i b Hi).
Qed.

Lemma BuildReference_nonempty_ok (registry digest : string) :
  registry <> "" ->
  Contains registry "@sha256:" = false ->
  HasPrefix digest "sha256:" = true ->
  BuildReference registry digest = (registry ++ "@" ++ digest, None).
Proof.
  intros Hne Hc Hp. unfold BuildReference.
  destruct (String.eqb_spec registry "") as [->|_]; [congruence |].
  rewrite Hc, Hp. reflexivity.
Qed.

Lemma BuildReference_empty (digest : string) :
  BuildReference "" digest = ("", Some EmptyRegistry).
Proof. reflexivity. Qed.

(** The digest string of any digest is accepted by [BuildReference]. *)
Lemma BuildReference_round_trip (registry : string) (d : list byte) :
  registry <> "" ->
  Contains registry "@sha256:" = false ->
  BuildReference registry (Digest32ToSha256String d)
  = (registry ++ "@" ++ Digest32ToSha256String d, None).
Proof.
  intros Hne Hc. apply BuildReference_nonempty_ok; [exact Hne | exact Hc |].
  apply HasPrefix_app.
Qed.

Example Digest32ToSha256String_all_aa :
  Digest32ToSha256String (repeat xaa 32)
  = "sha256:aaaaaaaaaaaaaaaaaaaaaaaaaaaaaaaaaaaaaaaaaaaaaaaaaaaaaaaaaaaaaaaa".
Proof. reflexivity. Qed.

(** C6. A registry that already holds ["@sha256:"] is returned as it
    is, without error, whatever the digest argument is: the digest is
    neither checked nor used. *)
Theorem BuildReference_passthrough (registry digest : string) :
  Contains registry "@sha256:" = true ->
  BuildReference registry digest = (registry, None).
Proof.
  intros Hc. unfold BuildReference.
  destruct (String.eqb_spec registry "") as [->|_].
  - discriminate Hc.
  - rewrite Hc. reflexivity.
Qed.

Lemma BuildReference_passthrough_witness :
  BuildReference "ghcr.io/org/image@sha256:2222" "this-should-be-ignored"
  = ("ghcr.io/org/image@sha256:2222", None).
Proof. apply BuildReference_passthrough. reflexivity. Defined.

(** C7, as stated, fails: the empty registry has no embedded digest,
    and with a digest that lacks the prefix the failure is the one for
    the empty registry, not the one for the digest format. *)
Lemma BuildReference_empty_registry_counterexample :
  ~ (forall registry digest : string,
       HasPrefix digest "sha256:" = false ->
       Contains registry "@sha256:" = false ->
       snd (BuildReference registry digest) = Some InvalidDigestFormat).
Proof.
  intros Hall. specialize (Hall "" "1111" eq_refl eq_refl). discriminate Hall.
Qed.

(** C7, amended. For a registry that is not empty and has no embedded
    ["@sha256:"], a digest without the ["sha256:"] prefix makes
    [BuildReference] fail with the invalid-digest-format error. *)
Theorem BuildReference_invalid_digest (registry digest : string) :
  registry <> "" ->
  Contains registry "@sha256:" = false ->
  HasPrefix digest "sha256:" = false ->
  BuildReference registry digest = ("", Some InvalidDigestFormat).
Proof.
  intros Hne Hc Hp. unfold BuildReference.
  destruct (String.eqb_spec registry "") as [->|_]; [congruence |].
  rewrite Hc, Hp. reflexivity.
Qed.

Lemma BuildReference_invalid_digest_witness :
  BuildReference "ghcr.io/org/image" "md5:1111" = ("", Some InvalidDigestFormat).
Proof.
  apply BuildReference_invalid_digest; [discriminate | reflexivity | reflexivity].
Defined.

(** C8. For a 32-byte digest the string has length 71, starts with
    ["sha256:"], and its remaining 64 characters are, byte after byte,
    the two lowercase hexadecimal digits of that byte, high digit first. *)
Theorem Digest32ToSha256String_format (d : list byte) :
  length d = 32 ->
  String.length (Digest32ToSha256String d) = 71
  /\ HasPrefix (Digest32ToSha256String d) "sha256:" = true
  /\ forall (i : nat) (b : byte),
       d !! i = Some b ->
       String.get (7 + 2 * i) (Digest32ToSha256String d)
         = Some (gohex.lower_hex_digit (Byte.to_N b / 16))
       /\ String.get (7 + 2 * i + 1) (Digest32ToSha256String d)
         = Some (gohex.lower_hex_digit (Byte.to_N b mod 16)).
Proof.
  intros Hlen. unfold Digest32ToSha256String. split; [|split].
  - rewrite length_append, length_ToLower, length_EncodeToString, Hlen.
    reflexivity.
  - apply HasPrefix_app.
  - intros i b Hi. destruct (get_lower_hex d i Hi) as [Hhi Hlo].
    split; [exact Hhi | exact Hlo].
Qed.

Lemma Digest32ToSha256String_format_witness :
  String.length (Digest32ToSha256String (repeat xaa 32)) = 71
  /\ HasPrefix (Digest32ToSha256String (repeat xaa 32)) "sha256:" = true.
Proof.
  destruct (Digest32ToSha256String_format (repeat xaa 32) eq_refl) as (Hl & Hp & _).
  split; [exact Hl | exact Hp].
Defined.

End ref_facts.

(** ** Signer *)
Module signer_facts.
Import signer.
Section WithCrypto.
Context {crypto : Crypto}.

(** Message signing reads the private key of the signer only. *)
Lemma ECDSASigner_SignMessage_key (s1 s2 : ECDSASigner) (msg : list byte) :
  ecdsa_privateKey s1 = ecdsa_privateKey s2 ->
  ECDSASigner_SignMessage s1 msg = ECDSASigner_SignMessage s2 msg.
Proof. intros Hk. unfold ECDSASigner_SignMessage. rewrite Hk. reflexivity. Qed.

(** C10. A keystore signer and an ECDSA signer that hold the same
    private key sign every message alike, as methods and through the
    [Signer] interface. *)
Theorem KeystoreSigner_SignMessage_ECDSASigner
    (ks : KeystoreSigner) (es : ECDSASigner) :
  keystore_privateKey ks = ecdsa_privateKey es ->
  forall msg : list byte,
    KeystoreSigner_SignMessage ks msg = ECDSASigner_SignMessage es msg
    /\ SignMessage (KeystoreSigner_Signer ks) msg
       = SignMessage (ECDSASigner_Signer es) msg.
Proof.
  intros Hk msg.
  assert (KeystoreSigner_SignMessage ks msg = ECDSASigner_SignMessage es msg) as E.
  { unfold KeystoreSigner_SignMessage. apply ECDSASigner_SignMessage_key. exact Hk. }
  split; [exact E | exact E].
Qed.

End WithCrypto.

Lemma KeystoreSigner_SignMessage_ECDSASigner_witness :
  let ks := @Build_KeystoreSigner controller_test.toyCrypto 7%N (repeat x00 20) in
  let es := @NewECDSASigner controller_test.toyCrypto 7%N in
  @KeystoreSigner_SignMessage controller_test.toyCrypto ks [x68; x69]
  = @ECDSASigner_SignMessage controller_test.toyCrypto es [x68; x69].
Proof.
  intros ks es.
  exact (proj1 (@KeystoreSigner_SignMessage_ECDSASigner
                  controller_test.toyCrypto ks es eq_refl [x68; x69])).
Defined.

End signer_facts.

(** ** Release ledger client: the write operations *)
Module eth_facts.
Import eth.

(** Split a hypothesis that a call occurs in an explicit trace into the
    positions where it can occur. *)
Ltac trace_cases H :=
  repeat (apply elem_of_cons in H as [H|H]);
  try (apply elem_of_nil in H; destruct H);
  try discriminate H.

(** Unfold one step of a traced computation. *)
Ltac traced_step :=
  unfold run, trace, result, mbind, Traced_bind, call, mret, Traced_ret; simpl.

Section WithCrypto.
Context {crypto : Crypto}.

Lemma Address_eqb_ne (a b : Address) : a <> b -> Address_eqb a b = false.
Proof. intros Hne. unfold Address_eqb. apply bool_decide_eq_false_2, Hne. Qed.

(** C9. Whatever the transport and the contract binding do, the
    transaction options that [PublishMetadataURI] and [PushRelease] hand
    to the binding carry a signing callback that, asked to sign for an
    address other than the attached signer's own, returns the
    unexpected-signer failure and no signed transaction. *)
Theorem write_operations_reject_foreign_signer
    {W : Type} (c : Client W) (sig : signer.Signer)
    (avs : Address) (opSetID : N) (uri : string)
    (artifacts : list Artifact) (upgradeByTime gasLimit : N) (w : W) :
  signer_ c = Some sig ->
  (forall opts operatorSet uri',
     CallPublishMetadataURI opts operatorSet uri'
       ∈ trace (run (PublishMetadataURI c avs opSetID uri gasLimit) w) ->
     rejects_foreign sig opts)
  /\ (forall opts operatorSet release,
        CallPublishRelease opts operatorSet release
          ∈ trace (run (PushRelease c avs opSetID artifacts upgradeByTime gasLimit) w) ->
        rejects_foreign sig opts).
Proof.
  intros Hsig. split.
  - intros opts operatorSet uri'. unfold PublishMetadataURI. rewrite Hsig.
    traced_step.
    destruct (ChainID (ethClient c) w) as [[chainID [e|]] w1]; simpl;
      [intros Hin; trace_cases Hin |].
    destruct (PendingNonceAt (ethClient c) (signer.Address_ sig) w1)
      as [[nonce [e|]] w2]; simpl; [intros Hin; trace_cases Hin |].
    destruct (SuggestGasPrice (ethClient c) w2) as [[gasPrice [e|]] w3]; simpl;
      [intros Hin; trace_cases Hin |].
    match goal with
    | |- context [rm_PublishMetadataURI ?r ?o ?s ?u ?x] =>
        destruct (rm_PublishMetadataURI r o s u x) as [[tx [e|]] w4]
    end; simpl; intros Hin; trace_cases Hin;
      injection Hin as -> _ _; intros address tx' Hne; simpl;
      rewrite (Address_eqb_ne Hne); reflexivity.
  - intros opts operatorSet release. unfold PushRelease. rewrite Hsig.
    traced_step.
    destruct (ChainID (ethClient c) w) as [[chainID [e|]] w1]; simpl;
      [intros Hin; trace_cases Hin |].
    destruct (PendingNonceAt (ethClient c) (signer.Address_ sig) w1)
      as [[nonce [e|]] w2]; simpl; [intros Hin; trace_cases Hin |].
    destruct (SuggestGasPrice (ethClient c) w2) as [[gasPrice [e|]] w3]; simpl;
      [intros Hin; trace_cases Hin |].
    match goal with
    | |- context [rm_PublishRelease ?r ?o ?s ?u ?x] =>
        destruct (rm_PublishRelease r o s u x) as [[tx [e|]] w4]
    end; simpl; intros Hin; trace_cases Hin;
      injection Hin as -> _ _; intros address tx' Hne; simpl;
      rewrite (Address_eqb_ne Hne); reflexivity.
Qed.

End WithCrypto.

(** The sample binding presents a foreign address: the callback refuses
    and the write operation reports the failure of the submission. *)
Example PublishMetadataURI_foreign_address_scenario :
  result (run (@PublishMetadataURI controller_test.toyCrypto unit
                 (eth_test.sampleClient eth_test.foreignAddress)
                 controller_test.testAVS 1 "https://example.com/metadata.json" 300000)
            tt)
  = (None,
     Some (wrapError "failed to publish metadata URI: unexpected signer address"
             (@UnexpectedSignerAddress))).
Proof. reflexivity. Qed.

Lemma write_operations_reject_foreign_signer_witness :
  exists opts operatorSet uri,
    CallPublishMetadataURI opts operatorSet uri
      ∈ trace (run (@PublishMetadataURI controller_test.toyCrypto unit
                      (eth_test.sampleClient eth_test.foreignAddress)
                      controller_test.testAVS 1 "https://example.com/metadata.json"
                      300000) tt)
    /\ Signer opts eth_test.foreignAddress []
       = (None, Some UnexpectedSignerAddress).
Proof.
  pose proof (proj1 (@write_operations_reject_foreign_signer
                       controller_test.toyCrypto unit
                       (eth_test.sampleClient eth_test.foreignAddress)
                       eth_test.sampleSigner controller_test.testAVS 1
                       "https://example.com/metadata.json" [] 0 300000 tt eq_refl))
    as Hrejects.
  eexists _, _, _. split.
  - cbv. do 3 apply list_elem_of_further. apply list_elem_of_here.
  - eapply Hrejects.
    + cbv. do 3 apply list_elem_of_further. apply list_elem_of_here.
    + discriminate.
Defined.

End eth_facts.

(** ** Controller *)
Module controller_facts.
Import controller gostrings_facts.
Import eth_facts.

Section WithCommon.
Context {common : Common}.

(** The merge loop computes the left-biased union. *)
Lemma merge_loop_union (user init : gmap string string) :
  map_fold (fun k v env => <[k := v]> env) init user = user ∪ init.
Proof.
  apply (map_fold_weak_ind (fun r m => r = m ∪ init)).
  - by rewrite (left_id_L ∅ (∪)).
  - intros k v m r _ ->. by rewrite insert_union_l.
Qed.

Lemma Execute_env_union (cfg : RunConfig) (relID upgradeByTime : N) :
  map_fold (fun k v env => <[k := v]> env)
    (<["AVS_ADDRESS" := Hex (AVS cfg)]>
     (<["OPERATOR_SET_ID" := gofmt.Sprintf_d (OperatorSetID cfg)]>
     (<["RELEASE_ID" := gofmt.Sprintf_d relID]>
     (<["UPGRADE_BY_TIME" := gofmt.Sprintf_d upgradeByTime]> ∅))))
    (Env cfg)
  = unionEnv cfg relID upgradeByTime.
Proof. rewrite merge_loop_union. reflexivity. Qed.

(** [Execute] is the resolution call followed, when it succeeds, by
    [executeRelease]. *)
Lemma Execute_resolved {W} (c : Controller W) (cfg : RunConfig) (w w1 : W)
    (rel : eth.Release) (relID : N) :
  resolve c cfg w = ((rel, relID, None), w1) ->
  run (Execute c cfg) w = executeRelease c cfg rel relID (w1, [resolutionCall cfg]).
Proof.
  unfold resolve, resolutionCall, Execute, run. destruct (ReleaseID cfg) as [rid|].
  - traced_step.
    destruct (eth.GetRelease (RM c) (AVS cfg) (OperatorSetID cfg) rid w)
      as [[rel' err'] w']. intros [= -> -> -> ->]. reflexivity.
  - traced_step. intros ->. reflexivity.
Qed.

(** The runtime calls of [executeRelease] for a release whose first
    artifact is [a]: none or the pull alone when it fails, else the pull
    and the run, both with the reference of [a]. *)
Lemma executeRelease_calls {W} (c : Controller W) (cfg : RunConfig)
    (rel : eth.Release) (relID : N) (a : eth.Artifact) (rest : list eth.Artifact)
    (w : W) (tr : list Call) :
  eth.Artifacts rel = a :: rest ->
  let r := executeRelease c cfg rel relID (w, tr) in
  (result r <> None
   /\ (trace r = tr \/ trace r = (tr ++ [CallPull (referenceOf a)])%list))
  \/ trace r = (tr ++ [CallPull (referenceOf a);
                       CallRun (referenceOf a)
                         (runOptionsOf cfg relID (eth.UpgradeByTime rel))])%list.
Proof.
  intros Hart. unfold executeRelease, referenceOf. rewrite Hart.
  destruct (ref.BuildReference (eth.Registry a)
              (ref.Digest32ToSha256String (eth.Digest32 a))) as [reference [e|]].
  - left. split; [discriminate | left; reflexivity].
  - traced_step.
    destruct (docker.Pull (Docker c) reference w) as [[e|] w2]; simpl.
    + left. split; [discriminate | right; reflexivity].
    + right. rewrite Execute_env_union. fold (runOptionsOf cfg relID (eth.UpgradeByTime rel)).
      destruct (docker.Run (Docker c) reference
                  (runOptionsOf cfg relID (eth.UpgradeByTime rel)) w2) as [[e|] w3];
        simpl; rewrite <- app_assoc; reflexivity.
Qed.

Lemma resolutionCall_not_runtime (cfg : RunConfig) :
  isRuntimeCall (resolutionCall cfg) = false.
Proof. unfold resolutionCall. destruct (ReleaseID cfg); reflexivity. Qed.

(** A failed latest-release lookup whose text says that no release
    exists is answered with the guidance for publishing a first release,
    and nothing else is called. *)
Lemma Execute_latest_no_releases {W} (c : Controller W) (cfg : RunConfig) (w w1 : W)
    (rel : eth.Release) (relID : N) (err : error) :
  ReleaseID cfg = None ->
  resolve c cfg w = ((rel, relID, Some err), w1) ->
  saysNoReleases err = true ->
  run (Execute c cfg) w
  = (Some (NoReleasesAvailable (AVS cfg) (OperatorSetID cfg)),
     (w1, [resolutionCall cfg])).
Proof.
  unfold resolve, resolutionCall, Execute, run, saysNoReleases.
  intros -> Hres Hsays. traced_step. rewrite Hres. simpl. rewrite Hsays. reflexivity.
Qed.

Lemma noReleasesAvailable_guides (avs : Address) (opSetID : N) :
  guidesOperator avs opSetID (Error (NoReleasesAvailable avs opSetID)) = true.
Proof.
  unfold guidesOperator, NoReleasesAvailable, noReleasesAvailableText,
    remediationCommand. cbn [Error].
  rewrite !andb_true_iff. split; [split |].
  - apply Contains_app_r, Contains_app_r, Contains_app_r, Contains_app_r,
      Contains_app_r.
    apply (Contains_middle "  " _ "flickr push --image <your-image>").
  - do 11 apply Contains_app_r. apply Contains_here.
  - do 14 apply Contains_app_r.
    apply Contains_refl.
Qed.

Lemma Execute_unresolved {W} (c : Controller W) (cfg : RunConfig) (w w1 : W)
    (rel : eth.Release) (relID : N) (err : error) :
  resolve c cfg w = ((rel, relID, Some err), w1) ->
  result (run (Execute c cfg) w) <> None
  /\ trace (run (Execute c cfg) w) = [resolutionCall cfg].
Proof.
  unfold resolve, resolutionCall, Execute, run. destruct (ReleaseID cfg) as [rid|].
  - traced_step.
    destruct (eth.GetRelease (RM c) (AVS cfg) (OperatorSetID cfg) rid w)
      as [[rel' err'] w']. intros [= -> -> -> ->]. simpl.
    destruct (gostrings.Contains (Error err) "array out-of-bounds");
      (split; [discriminate | reflexivity]).
  - traced_step. intros ->. simpl.
    destruct (gostrings.Contains (Error err) "arithmetic underflow"
              || gostrings.Contains (Error err) "NoReleases");
      [| destruct (gostrings.Contains (Error err) "array out-of-bounds")];
      (split; [discriminate | reflexivity]).
Qed.

(** C1, amended. How [Execute] classifies a failed release lookup,
    after which nothing else is called.  When the latest release is
    asked for and the ledger fails with a text holding the
    arithmetic-underflow signature or the marker [NoReleases], [Execute]
    returns the guidance for publishing a first release.  When a
    specific release id is asked for, only the out-of-bounds pattern is
    rewritten, into the failure that names the id; every other failure,
    one that says that no release exists included, is passed on under
    ["failed to get release <id>: "] with the ledger's error as its
    cause. *)
Theorem Execute_classifies_lookup_failure
    {W} (c : Controller W) (cfg : RunConfig) (w w1 : W)
    (rel : eth.Release) (relID : N) (err : error) :
  resolve c cfg w = ((rel, relID, Some err), w1) ->
  trace (run (Execute c cfg) w) = [resolutionCall cfg]
  /\ (ReleaseID cfg = None ->
      saysNoReleases err = true ->
      result (run (Execute c cfg) w)
      = Some (NoReleasesAvailable (AVS cfg) (OperatorSetID cfg)))
  /\ (forall releaseID : N,
        ReleaseID cfg = Some releaseID ->
        (gostrings.Contains (Error err) "array out-of-bounds" = true ->
         result (run (Execute c cfg) w)
         = Some (errorString
                   ("release ID " ++ gofmt.Sprintf_d releaseID ++ " does not exist")))
        /\ (gostrings.Contains (Error err) "array out-of-bounds" = false ->
            result (run (Execute c cfg) w)
            = Some (wrapError
                      ("failed to get release " ++ gofmt.Sprintf_d releaseID ++ ": "
                       ++ Error err) err))).
Proof.
  intros Hres. split; [exact (proj2 (Execute_unresolved c cfg w Hres)) |]. split.
  - intros Hlatest Hsays.
    rewrite (Execute_latest_no_releases c cfg w Hlatest Hres Hsays). reflexivity.
  - intros releaseID Hid. revert Hres. unfold resolve, Execute, run. rewrite Hid.
    traced_step.
    destruct (eth.GetRelease (RM c) (AVS cfg) (OperatorSetID cfg) releaseID w)
      as [[rel' err'] w']. intros [= -> -> -> ->]. simpl.
    split; intros Hoob; rewrite Hoob; reflexivity.
Qed.

(** C2, amended. When the latest-release lookup fails for want of any
    release, the message [Execute] returns gives the command for
    publishing a release and echoes the AVS address and the operator-set
    id. *)
Theorem Execute_no_releases_message_guides
    {W} (c : Controller W) (cfg : RunConfig) (w w1 : W)
    (rel : eth.Release) (relID : N) (err : error) :
  ReleaseID cfg = None ->
  resolve c cfg w = ((rel, relID, Some err), w1) ->
  saysNoReleases err = true ->
  exists e : error,
    result (run (Execute c cfg) w) = Some e
    /\ guidesOperator (AVS cfg) (OperatorSetID cfg) (Error e) = true.
Proof.
  intros Hlatest Hres Hsays.
  exists (NoReleasesAvailable (AVS cfg) (OperatorSetID cfg)).
  rewrite (Execute_latest_no_releases c cfg w Hlatest Hres Hsays).
  split; [reflexivity | apply noReleasesAvailable_guides].
Qed.

(** C3. A resolved release without artifacts makes [Execute] fail with
    the no-artifacts error, whatever its upgrade deadline, and the
    runtime is asked neither to pull nor to run. *)
Theorem Execute_no_artifacts
    {W} (c : Controller W) (cfg : RunConfig) (w w1 : W)
    (rel : eth.Release) (relID : N) :
  resolve c cfg w = ((rel, relID, None), w1) ->
  eth.Artifacts rel = [] ->
  result (run (Execute c cfg) w) = Some NoArtifactsInRelease
  /\ forall call : Call,
       call ∈ trace (run (Execute c cfg) w) -> isRuntimeCall call = false.
Proof.
  intros Hres Hart. rewrite (Execute_resolved c cfg w Hres).
  unfold executeRelease. rewrite Hart. split; [reflexivity |].
  intros call Hin. unfold trace in Hin. simpl in Hin.
  apply list_elem_of_singleton in Hin as ->. apply resolutionCall_not_runtime.
Qed.

(** The runtime calls of [Execute] on a release whose first artifact is
    [a], and its trace when it succeeds. *)
Lemma Execute_runtime_calls
    {W} (c : Controller W) (cfg : RunConfig) (w w1 : W)
    (rel : eth.Release) (relID : N)
    (a : eth.Artifact) (rest : list eth.Artifact) :
  resolve c cfg w = ((rel, relID, None), w1) ->
  eth.Artifacts rel = a :: rest ->
  let opts := runOptionsOf cfg relID (eth.UpgradeByTime rel) in
  (forall call : Call,
     call ∈ trace (run (Execute c cfg) w) ->
     isRuntimeCall call = true ->
     call = CallPull (referenceOf a) \/ call = CallRun (referenceOf a) opts)
  /\ (result (run (Execute c cfg) w) = None ->
      trace (run (Execute c cfg) w)
      = [resolutionCall cfg; CallPull (referenceOf a); CallRun (referenceOf a) opts]).
Proof.
  intros Hres Hart opts. rewrite (Execute_resolved c cfg w Hres).
  pose proof (executeRelease_calls c cfg rel relID w1 [resolutionCall cfg] Hart) as Hcalls.
  subst opts. cbv zeta in Hcalls.
  destruct Hcalls as [[Hfail [Htr|Htr]]|Htr]; rewrite Htr; simpl.
  - split; [| intros; contradiction].
    intros call Hin Hrt. apply list_elem_of_singleton in Hin as ->.
    rewrite resolutionCall_not_runtime in Hrt. discriminate Hrt.
  - split; [| intros; contradiction].
    intros call Hin Hrt. trace_cases Hin; subst call.
    + rewrite resolutionCall_not_runtime in Hrt. discriminate Hrt.
    + left. reflexivity.
  - split; [| reflexivity].
    intros call Hin Hrt. trace_cases Hin; subst call.
    + rewrite resolutionCall_not_runtime in Hrt. discriminate Hrt.
    + left. reflexivity.
    + right. reflexivity.
Qed.

(** C4. For a release with two artifacts or more, every runtime call of
    [Execute] is the pull or the run of the reference built from the
    first artifact's registry and digest, with options built from the
    configuration, the release id and the deadline: nothing of the other
    artifacts enters them.  A successful execution makes exactly these
    two calls, and the execution stays the same when the other artifacts
    are replaced by any others. *)
Theorem Execute_first_artifact_only
    {W} (c : Controller W) (cfg : RunConfig) (w w1 : W)
    (rel : eth.Release) (relID : N)
    (a b : eth.Artifact) (rest : list eth.Artifact) :
  resolve c cfg w = ((rel, relID, None), w1) ->
  eth.Artifacts rel = a :: b :: rest ->
  let reference :=
    fst (ref.BuildReference (eth.Registry a)
           (ref.Digest32ToSha256String (eth.Digest32 a))) in
  let opts := runOptionsOf cfg relID (eth.UpgradeByTime rel) in
  (forall call : Call,
     call ∈ trace (run (Execute c cfg) w) ->
     isRuntimeCall call = true ->
     call = CallPull reference \/ call = CallRun reference opts)
  /\ (result (run (Execute c cfg) w) = None ->
      trace (run (Execute c cfg) w)
      = [resolutionCall cfg; CallPull reference; CallRun reference opts])
  /\ (forall others : list eth.Artifact,
        run (Execute c cfg) w
        = executeRelease c cfg
            {| eth.Artifacts := a :: others;
               eth.UpgradeByTime := eth.UpgradeByTime rel |}
            relID (w1, [resolutionCall cfg])).
Proof.
  intros Hres Hart reference opts.
  destruct (Execute_runtime_calls c cfg w Hres Hart) as [Hcalls Hok].
  split; [exact Hcalls | split; [exact Hok |]].
  intros others. rewrite (Execute_resolved c cfg w Hres).
  unfold executeRelease. rewrite Hart. reflexivity.
Qed.

Lemma unionEnv_fixed (cfg : RunConfig) (relID upgradeByTime : N) (k v : string) :
  fixedEnv cfg relID upgradeByTime !! k = Some v ->
  unionEnv cfg relID upgradeByTime !! k = Some (default v (Env cfg !! k)).
Proof.
  intros Hk. unfold unionEnv. rewrite lookup_union, Hk.
  destruct (Env cfg !! k); reflexivity.
Qed.

Lemma unionEnv_override (cfg : RunConfig) (relID upgradeByTime : N) (k v : string) :
  Env cfg !! k = Some v ->
  unionEnv cfg relID upgradeByTime !! k = Some v.
Proof. intros Hk. unfold unionEnv. apply lookup_union_Some_l, Hk. Qed.

(** C5. When [Execute] succeeds it has made one run call, and the
    environment of that call holds the four fixed variables, each with
    the caller's value if the caller supplied that key and else with the
    injected one (the address in hex, the operator-set id, the resolved
    release id and the upgrade deadline in decimal); every variable of
    the caller is passed with the caller's value. *)
Theorem Execute_env_injected
    {W} (c : Controller W) (cfg : RunConfig) (w w1 : W)
    (rel : eth.Release) (relID : N) (err : option error) :
  resolve c cfg w = ((rel, relID, err), w1) ->
  result (run (Execute c cfg) w) = None ->
  exists (reference : string) (opts : docker.RunOptions),
    trace (run (Execute c cfg) w)
      = [resolutionCall cfg; CallPull reference; CallRun reference opts]
    /\ docker.Env opts !! "AVS_ADDRESS"
       = Some (default (Hex (AVS cfg)) (Env cfg !! "AVS_ADDRESS"))
    /\ docker.Env opts !! "OPERATOR_SET_ID"
       = Some (default (gofmt.Sprintf_d (OperatorSetID cfg))
                 (Env cfg !! "OPERATOR_SET_ID"))
    /\ docker.Env opts !! "RELEASE_ID"
       = Some (default (gofmt.Sprintf_d relID) (Env cfg !! "RELEASE_ID"))
    /\ docker.Env opts !! "UPGRADE_BY_TIME"
       = Some (default (gofmt.Sprintf_d (eth.UpgradeByTime rel))
                 (Env cfg !! "UPGRADE_BY_TIME"))
    /\ forall k v : string,
         Env cfg !! k = Some v -> docker.Env opts !! k = Some v.
Proof.
  intros Hres Hok. destruct err as [e|].
  { destruct (Execute_unresolved c cfg w Hres) as [Hne _]. contradiction. }
  rewrite (Execute_resolved c cfg w Hres) in Hok |- *.
  destruct (eth.Artifacts rel) as [|a rest] eqn:Hart.
  { unfold executeRelease in Hok. rewrite Hart in Hok. discriminate Hok. }
  destruct (executeRelease_calls c cfg rel relID w1 [resolutionCall cfg] Hart)
    as [[Hfail _]|Htr]; [contradiction |].
  exists (referenceOf a), (runOptionsOf cfg relID (eth.UpgradeByTime rel)).
  split; [exact Htr |]. cbn [runOptionsOf docker.Env].
  repeat split; try (apply unionEnv_fixed; reflexivity).
  intros k v. apply unionEnv_override.
Qed.

End WithCommon.
End controller_facts.

(** ** The properties on the scenarios of the tests *)
Module scenarios.
Import controller controller_test controller_facts.
#[local] Existing Instance plainHex.

(** The scenario of [TestController_Execute_LatestRelease]. *)
Example Execute_latest_scenario :
  let r := run (Execute (controllerOf (mockLatest latestRelease 7))
                  (cfgWith None {[ "CUSTOM_VAR" := "custom_value" ]}))
             newCaptureDocker in
  result r = None
  /\ pulled (fst (snd r))
     = "ghcr.io/org/image@sha256:aaaaaaaaaaaaaaaaaaaaaaaaaaaaaaaaaaaaaaaaaaaaaaaaaaaaaaaaaaaaaaaa"
  /\ ran (fst (snd r)) = pulled (fst (snd r))
  /\ env (fst (snd r)) !! "AVS_ADDRESS"
     = Some "0x1234567890123456789012345678901234567890"
  /\ env (fst (snd r)) !! "OPERATOR_SET_ID" = Some "1"
  /\ env (fst (snd r)) !! "RELEASE_ID" = Some "7"
  /\ env (fst (snd r)) !! "UPGRADE_BY_TIME" = Some "123456"
  /\ env (fst (snd r)) !! "CUSTOM_VAR" = Some "custom_value".
Proof. vm_compute. repeat split. Qed.

(** A specific release id that the ledger reports out of range. *)
Example Execute_release_not_found_scenario :
  result (run (Execute
                 (controllerOf (mockFailing (errorString
                    "execution reverted: panic: array out-of-bounds access (0x32)")))
                 (cfgWith (Some 42%N) ∅)) newCaptureDocker)
  = Some (errorString "release ID 42 does not exist").
Proof. reflexivity. Qed.

(** C1, as stated, fails for a specific release id: the ledger failure
    below carries the arithmetic-underflow signature, and [Execute]
    passes it on under the name of the operation instead of rewriting
    it. *)
Lemma Execute_specific_id_not_rewritten :
  resolve (controllerOf (mockFailing underflowError)) (cfgWith (Some 42%N) ∅)
    newCaptureDocker
  = ((zeroRelease, 42%N, Some underflowError), newCaptureDocker)
  /\ saysNoReleases underflowError = true
  /\ result (run (Execute (controllerOf (mockFailing underflowError))
                    (cfgWith (Some 42%N) ∅)) newCaptureDocker)
     = Some (wrapError
               "failed to get release 42: execution reverted: panic: arithmetic underflow or overflow (0x11)"
               underflowError)
  /\ result (run (Execute (controllerOf (mockFailing underflowError))
                    (cfgWith (Some 42%N) ∅)) newCaptureDocker)
     <> Some (NoReleasesAvailable testAVS 1)
  /\ gostrings.Contains
       "failed to get release 42: execution reverted: panic: arithmetic underflow or overflow (0x11)"
       remediationCommand = false.
Proof. repeat split; try reflexivity. discriminate. Qed.

Lemma Execute_classifies_lookup_failure_witness :
  result (run (Execute (controllerOf (mockFailing underflowError)) (cfgWith None ∅))
            newCaptureDocker)
  = Some (NoReleasesAvailable testAVS 1)
  /\ result (run (Execute (controllerOf (mockFailing underflowError))
                    (cfgWith (Some 42%N) ∅)) newCaptureDocker)
     = Some (wrapError
               "failed to get release 42: execution reverted: panic: arithmetic underflow or overflow (0x11)"
               underflowError).
Proof.
  split.
  - exact (proj1 (proj2 (Execute_classifies_lookup_failure
                           (controllerOf (mockFailing underflowError)) (cfgWith None ∅)
                           newCaptureDocker eq_refl)) eq_refl eq_refl).
  - exact (proj2 (proj2 (proj2 (Execute_classifies_lookup_failure
                                  (controllerOf (mockFailing underflowError))
                                  (cfgWith (Some 42%N) ∅) newCaptureDocker eq_refl))
                    42%N eq_refl) eq_refl).
Defined.

(** C2, as stated, fails for the no-artifacts failure: its message is a
    fixed text with neither the command nor the operator-set key. *)
Lemma NoArtifactsInRelease_message_bare :
  result (run (Execute (controllerOf (mockLatest emptyRelease 1)) (cfgWith None ∅))
            newCaptureDocker)
  = Some NoArtifactsInRelease
  /\ gostrings.Contains (Error NoArtifactsInRelease) remediationCommand = false
  /\ gostrings.Contains (Error NoArtifactsInRelease) (Hex testAVS) = false
  /\ guidesOperator testAVS 1 (Error NoArtifactsInRelease) = false.
Proof. repeat split. Qed.

Lemma Execute_no_releases_message_guides_witness :
  exists e : error,
    result (run (Execute (controllerOf (mockFailing (errorString "NoReleases")))
                   (cfgWith None ∅)) newCaptureDocker) = Some e
    /\ guidesOperator testAVS 1 (Error e) = true.
Proof.
  exact (Execute_no_releases_message_guides
           (controllerOf (mockFailing (errorString "NoReleases"))) (cfgWith None ∅)
           newCaptureDocker eq_refl eq_refl eq_refl).
Defined.

Lemma Execute_no_artifacts_witness :
  result (run (Execute (controllerOf (mockLatest emptyRelease 1)) (cfgWith None ∅))
            newCaptureDocker)
  = Some NoArtifactsInRelease.
Proof.
  exact (proj1 (Execute_no_artifacts
                  (controllerOf (mockLatest emptyRelease 1)) (cfgWith None ∅)
                  newCaptureDocker eq_refl eq_refl)).
Defined.

Lemma Execute_first_artifact_only_witness :
  trace (run (Execute (controllerOf (mockLatest multiRelease 9)) (cfgWith None ∅))
           newCaptureDocker)
  = [ CallGetLatestRelease testAVS 1;
      CallPull (referenceOf firstArtifact);
      CallRun (referenceOf firstArtifact) (runOptionsOf (cfgWith None ∅) 9 200) ].
Proof.
  exact (proj1 (proj2 (Execute_first_artifact_only
                         (controllerOf (mockLatest multiRelease 9)) (cfgWith None ∅)
                         newCaptureDocker eq_refl eq_refl)) eq_refl).
Defined.

Lemma Execute_env_injected_witness :
  exists (reference : string) (opts : docker.RunOptions),
    trace (run (Execute (controllerOf (mockLatest latestRelease 7))
                  (cfgWith None {[ "RELEASE_ID" := "mine" ]})) newCaptureDocker)
      = [ CallGetLatestRelease testAVS 1; CallPull reference; CallRun reference opts ]
    /\ docker.Env opts !! "AVS_ADDRESS"
       = Some "0x1234567890123456789012345678901234567890"
    /\ docker.Env opts !! "OPERATOR_SET_ID" = Some "1"
    /\ docker.Env opts !! "RELEASE_ID" = Some "mine"
    /\ docker.Env opts !! "UPGRADE_BY_TIME" = Some "123456".
Proof.
  destruct (Execute_env_injected
              (controllerOf (mockLatest latestRelease 7))
              (cfgWith None {[ "RELEASE_ID" := "mine" ]})
              newCaptureDocker eq_refl eq_refl)
    as (reference & opts & Htr & Havs & Hset & Hrel & Hupg & _).
  exists reference, opts. repeat split; assumption.
Defined.

End scenarios.

(** ** Reference resolver: further properties *)
Module ref_more.
Import gostrings gostrings_facts ref ref_facts.

Lemma HasPrefix_Contains (s p : string) :
  HasPrefix s p = true -> Contains s p = true.
Proof. intros Hp. destruct s; simpl; rewrite ?Hp; destruct p; try reflexivity; discriminate Hp. Qed.

(** X1. [BuildReference] succeeds exactly when the registry is not empty and
    either embeds a digest or comes with a digest of the right prefix. *)
Theorem BuildReference_succeeds_iff (registry digest : string) :
  snd (BuildReference registry digest) = None
  <-> registry <> ""
      /\ (Contains registry "@sha256:" = true \/ HasPrefix digest "sha256:" = true).
Proof.
  unfold BuildReference.
  destruct (String.eqb_spec registry "") as [->|Hne];
    [| destruct (Contains registry "@sha256:") eqn:Hc;
       [| destruct (HasPrefix digest "sha256:") eqn:Hp]];
    cbn [snd negb]; split; try discriminate; try reflexivity.
  - intros [Hne _]. congruence.
  - intros _. split; [exact Hne | left; reflexivity].
  - intros _. split; [exact Hne | right; reflexivity].
  - intros [_ [H|H]]; discriminate H.
Qed.

(** X2. A reference that [BuildReference] has built embeds its digest: given
    back as the registry it is returned as it is, whatever the digest. *)
Theorem BuildReference_output_fixed (registry digest reference : string) :
  BuildReference registry digest = (reference, None) ->
  Contains reference "@sha256:" = true
  /\ forall digest' : string, BuildReference reference digest' = (reference, None).
Proof.
  intros Hbuild.
  assert (Contains reference "@sha256:" = true) as Hc.
  { revert Hbuild. unfold BuildReference.
    destruct (String.eqb_spec registry "") as [->|Hne]; [discriminate |].
    destruct (Contains registry "@sha256:") eqn:Hreg.
    - intros [= <-]. exact Hreg.
    - destruct (HasPrefix digest "sha256:") eqn:Hd; [| discriminate].
      intros [= <-]. apply Contains_app_r, HasPrefix_Contains.
      change (HasPrefix (String "@" digest) (String "@" "sha256:") = true).
      cbn [HasPrefix]. rewrite Ascii.eqb_refl. exact Hd. }
  split; [exact Hc |].
  intros digest'. unfold BuildReference.
  destruct (String.eqb_spec reference "") as [->|_]; [discriminate Hc |].
  rewrite Hc. reflexivity.
Qed.

Lemma BuildReference_output_fixed_witness :
  Contains "ghcr.io/org/image@sha256:11" "@sha256:" = true
  /\ forall digest' : string,
       BuildReference "ghcr.io/org/image@sha256:11" digest'
       = ("ghcr.io/org/image@sha256:11", None).
Proof.
  exact (BuildReference_output_fixed "ghcr.io/org/image" "sha256:11" eq_refl).
Defined.

(** X3. A digest string made by [Digest32ToSha256String] is never refused:
    with a registry that is not empty [BuildReference] succeeds on it,
    for a digest of any length, and unless the registry embeds a digest
    already the reference is the registry, ["@"] and that digest
    string. *)
Theorem BuildReference_accepts_digest_strings (registry : string) (d : list byte) :
  registry <> "" ->
  snd (BuildReference registry (Digest32ToSha256String d)) = None
  /\ (Contains registry "@sha256:" = false ->
      fst (BuildReference registry (Digest32ToSha256String d))
      = registry ++ "@" ++ Digest32ToSha256String d).
Proof.
  intros Hne. split.
  - destruct (Contains registry "@sha256:") eqn:Hc.
    + unfold BuildReference.
      destruct (String.eqb_spec registry "") as [E|_]; [congruence |].
      rewrite Hc. reflexivity.
    + rewrite (BuildReference_round_trip d Hne Hc). reflexivity.
  - intros Hc. rewrite (BuildReference_round_trip d Hne Hc). reflexivity.
Qed.

Lemma BuildReference_accepts_digest_strings_witness :
  snd (BuildReference "alpine" (Digest32ToSha256String (repeat x00 32))) = None
  /\ fst (BuildReference "alpine" (Digest32ToSha256String (repeat x00 32)))
     = "alpine@" ++ Digest32ToSha256String (repeat x00 32).
Proof.
  destruct (@BuildReference_accepts_digest_strings "alpine" (repeat x00 32)
              ltac:(discriminate)) as [Hok Href].
  split; [exact Hok | exact (Href eq_refl)].
Defined.

Lemma lower_hex_digit_inj (n m : N) :
  (n < 16)%N -> (m < 16)%N ->
  gohex.lower_hex_digit n = gohex.lower_hex_digit m -> n = m.
Proof.
  intros Hn Hm Heq. apply (f_equal N_of_ascii) in Heq.
  unfold gohex.lower_hex_digit in Heq.
  destruct (N.ltb_spec n 10), (N.ltb_spec m 10);
    rewrite !N_ascii_embedding in Heq by lia; lia.
Qed.

Lemma hex_pair_inj (v w : byte) :
  toLowerByte (gohex.hexchar (N.shiftr (Byte.to_N v) 4))
    = toLowerByte (gohex.hexchar (N.shiftr (Byte.to_N w) 4)) ->
  toLowerByte (gohex.hexchar (N.land (Byte.to_N v) 15))
    = toLowerByte (gohex.hexchar (N.land (Byte.to_N w) 15)) ->
  v = w.
Proof.
  destruct (hex_pair_lower v) as [-> ->]. destruct (hex_pair_lower w) as [-> ->].
  pose proof (Byte.to_N_bounded v) as Hv. pose proof (Byte.to_N_bounded w) as Hw.
  intros Hhi Hlo.
  apply lower_hex_digit_inj in Hhi;
    [| apply N.Div0.div_lt_upper_bound; lia | apply N.Div0.div_lt_upper_bound; lia].
  apply lower_hex_digit_inj in Hlo; [| apply N.mod_lt; lia | apply N.mod_lt; lia].
  assert (Byte.to_N v = Byte.to_N w) as E.
  { rewrite (N.div_mod (Byte.to_N v) 16), (N.div_mod (Byte.to_N w) 16) by lia.
    rewrite Hhi, Hlo. reflexivity. }
  apply (f_equal Byte.of_N) in E. rewrite !Byte.of_to_N in E.
  injection E as ->. reflexivity.
Qed.

(** X4. Different digests have different digest strings (for byte
    sequences of any length). *)
Theorem Digest32ToSha256String_injective (d1 d2 : list byte) :
  Digest32ToSha256String d1 = Digest32ToSha256String d2 -> d1 = d2.
Proof.
  unfold Digest32ToSha256String. intros Heq. injection Heq as Heq.
  revert d2 Heq. induction d1 as [|v d1 IH]; intros [|w d2] Heq; simpl in Heq.
  - reflexivity.
  - discriminate Heq.
  - discriminate Heq.
  - injection Heq as Hhi Hlo Hrest.
    rewrite (hex_pair_inj v w Hhi Hlo), (IH d2 Hrest). reflexivity.
Qed.

Lemma Digest32ToSha256String_injective_witness :
  repeat xaa 32 = repeat xaa 32.
Proof.
  exact (@Digest32ToSha256String_injective (repeat xaa 32) (repeat xaa 32) eq_refl).
Defined.

End ref_more.

(** ** Signer: further properties *)
Module signer_more.
Import signer gostrings gostrings_facts eth_facts.

Lemma add27_to_N (v : byte) :
  (Byte.to_N v < 27)%N -> Byte.to_N (add27 v) = (Byte.to_N v + 27)%N.
Proof.
  intros Hv. unfold add27. rewrite N.mod_small by lia.
  destruct (Byte.of_N (Byte.to_N v + 27)) as [b|] eqn:E.
  - apply Byte.to_of_N, E.
  - apply Byte.of_N_None_iff in E. lia.
Qed.

Lemma substring_all (s : string) : substring 0 (String.length s) s = s.
Proof. induction s as [|c s IH]; simpl; [reflexivity | rewrite IH; reflexivity]. Qed.

Lemma substring_0_0 (s : string) : substring 0 0 s = "".
Proof. destruct s; reflexivity. Qed.

(** [hexKey[0:2] == "0x"], guarded by the length, is the prefix test. *)
Lemma has_0x_prefix (k : string) :
  (2 <=? String.length k)%nat && String.eqb (substring 0 2 k) "0x" = HasPrefix k "0x".
Proof.
  destruct k as [|a [|b k]]; [reflexivity | simpl; destruct (a =? "0")%char; reflexivity |].
  cbn [String.length Nat.leb andb substring HasPrefix]. rewrite substring_0_0.
  destruct (Ascii.eqb_spec a "0") as [->|Ha].
  - destruct (Ascii.eqb_spec b "x") as [->|Hb].
    + reflexivity.
    + apply String.eqb_neq. congruence.
  - apply String.eqb_neq. congruence.
Qed.

Section WithCrypto.
Context {crypto : Crypto}.

(** X5. The recovery byte is normalised and nothing else changes: when the
    library returns a signature with a byte at index 64, [SignMessage]
    returns a signature of the same length that agrees with it
    everywhere else, whose byte 64 is at least 27; a recovery id of 0 or
    1 becomes 27 or 28. *)
Theorem ECDSASigner_SignMessage_normalizes
    (s : ECDSASigner) (msg sig : list byte) (v : byte) :
  crypto_Sign (TextHash msg) (ecdsa_privateKey s) = (sig, None) ->
  sig !! 64%nat = Some v ->
  exists (out : list byte) (v' : byte),
    ECDSASigner_SignMessage s msg = Returns (out, None)
    /\ length out = length sig
    /\ (forall i : nat, i <> 64%nat -> out !! i = sig !! i)
    /\ out !! 64%nat = Some v'
    /\ (27 <= Byte.to_N v')%N
    /\ ((Byte.to_N v <= 1)%N -> Byte.to_N v' = (27 + Byte.to_N v)%N).
Proof.
  intros Hsign Hv. unfold ECDSASigner_SignMessage. rewrite Hsign, Hv.
  destruct (N.ltb_spec (Byte.to_N v) 27) as [Hlt|Hge].
  - exists (<[64%nat := add27 v]> sig), (add27 v).
    split; [reflexivity |]. split; [apply length_insert |].
    split; [intros i Hi; apply list_lookup_insert_ne; congruence |].
    split; [apply list_lookup_insert_eq; apply lookup_lt_Some in Hv; exact Hv |].
    rewrite (add27_to_N v Hlt). split; lia.
  - exists sig, v. repeat split; try assumption. lia.
Qed.

(** X6. [SignMessage] panics exactly when the library returns, without an
    error, a signature shorter than 65 bytes. *)
Theorem ECDSASigner_SignMessage_panics_iff (s : ECDSASigner) (msg : list byte) :
  ECDSASigner_SignMessage s msg = Panics
  <-> snd (crypto_Sign (TextHash msg) (ecdsa_privateKey s)) = None
      /\ length (fst (crypto_Sign (TextHash msg) (ecdsa_privateKey s))) <= 64.
Proof.
  unfold ECDSASigner_SignMessage.
  destruct (crypto_Sign (TextHash msg) (ecdsa_privateKey s)) as [sig [e|]]; simpl.
  - split; [discriminate | intros [He _]; discriminate He].
  - destruct (sig !! 64%nat) as [v|] eqn:Hv.
    + apply lookup_lt_Some in Hv.
      destruct (Byte.to_N v <? 27)%N; (split; [discriminate | intros [_ Hlen]; lia]).
    + apply lookup_ge_None in Hv. split; [intros _; split; [reflexivity | lia] | reflexivity].
Qed.

(** X7. The ["0x"] prefix of a hexadecimal key is optional: a key that does
    not itself start with ["0x"] gives the same signer with and without
    the prefix. *)
Theorem NewECDSASignerFromHex_prefix_optional (hexKey : string) :
  HasPrefix hexKey "0x" = false ->
  NewECDSASignerFromHex ("0x" ++ hexKey) = NewECDSASignerFromHex hexKey.
Proof.
  intros Hno. unfold NewECDSASignerFromHex.
  rewrite !has_0x_prefix, Hno.
  change (HasPrefix ("0x" ++ hexKey) "0x") with true. cbn iota.
  change (substring 2 (String.length ("0x" ++ hexKey) - 2) ("0x" ++ hexKey))
    with (substring 0 (String.length hexKey - 0) hexKey).
  rewrite Nat.sub_0_r, substring_all. reflexivity.
Qed.

(** A keystore signer and an ECDSA signer with the same key and the
    same address are the same [Signer]: no method tells them apart. *)
Theorem KeystoreSigner_Signer_ECDSASigner_Signer
    (ks : KeystoreSigner) (es : ECDSASigner) :
  keystore_privateKey ks = ecdsa_privateKey es ->
  keystore_address ks = ecdsa_address es ->
  KeystoreSigner_Signer ks = ECDSASigner_Signer es.
Proof.
  destruct ks as [k a], es as [k' a']. simpl. intros -> ->. reflexivity.
Qed.

Context {keystore : Keystore}.

(** X8. [FromContext] touches the file system only to read the keystore
    file, once, and only when no private key is configured and both the
    keystore path and its password are given. *)
Theorem FromContext_file_access
    {W} (os : goos.OS W) (ctx : config.Context) (w : W) :
  trace (run (FromContext os ctx) w) = []
  \/ (config.ECDSAPrivateKey ctx = ""
      /\ config.KeystorePath ctx <> ""
      /\ config.KeystorePassword ctx <> ""
      /\ trace (run (FromContext os ctx) w)
         = [goos.CallReadFile (config.KeystorePath ctx)]).
Proof.
  unfold FromContext, run.
  destruct (String.eqb_spec (config.ECDSAPrivateKey ctx) "") as [Hkey|Hkey]; cbn [negb].
  - destruct (String.eqb_spec (config.KeystorePath ctx) "") as [Hpath|Hpath]; cbn [negb].
    + left. reflexivity.
    + destruct (String.eqb_spec (config.KeystorePassword ctx) "") as [Hpw|Hpw].
      * left. reflexivity.
      * right. repeat (split; [assumption |]).
        unfold NewKeystoreSigner. traced_step.
        destruct (goos.ReadFile os (config.KeystorePath ctx) w) as [[keyjson [e|]] w1];
          simpl; [reflexivity |].
        destruct (DecryptKey keyjson (config.KeystorePassword ctx)) as [[[k a]|] [e|]];
          reflexivity.
  - left. destruct (NewECDSASignerFromHex (config.ECDSAPrivateKey ctx)) as [[s e]|];
      reflexivity.
Qed.

(** X9. With a keystore path and no private key, every failure of
    [FromContext] says ["keystore"] in its text and comes with a signer
    that has no method to call.  That signer is the [nil] interface only
    when the password is missing: when the file cannot be read or
    decrypted it is a [nil] keystore pointer inside an interface value,
    which does not compare equal to [nil]. *)
Theorem FromContext_keystore_failures
    {W} (os : goos.OS W) (ctx : config.Context) (w : W)
    (s : SignerValue) (e : error) :
  config.ECDSAPrivateKey ctx = "" ->
  config.KeystorePath ctx <> "" ->
  result (run (FromContext os ctx) w) = Returns (s, Some e) ->
  Contains (Error e) "keystore" = true
  /\ methodsOf s = None
  /\ (config.KeystorePassword ctx = "" -> s = nilSigner)
  /\ (config.KeystorePassword ctx <> "" ->
      s = ptrKeystoreSigner None /\ isNil s = false).
Proof.
  intros Hkey Hpath. unfold FromContext, run. rewrite Hkey.
  destruct (String.eqb_spec (config.KeystorePath ctx) "") as [E|_]; [congruence |].
  cbn [String.eqb negb].
  destruct (String.eqb_spec (config.KeystorePassword ctx) "") as [Hpw|Hpw].
  - intros [= <- <-]. repeat split; congruence.
  - unfold NewKeystoreSigner. traced_step.
    destruct (goos.ReadFile os (config.KeystorePath ctx) w) as [[keyjson [e0|]] w1]; simpl.
    + intros [= <- <-].
      split; [apply (Contains_middle "failed to read " _ "keystore") |].
      repeat split; congruence.
    + destruct (DecryptKey keyjson (config.KeystorePassword ctx)) as [[[k a]|] [e0|]];
        simpl; try discriminate; intros [= <- <-];
        (split; [apply (Contains_middle "failed to decrypt " _ "keystore") |]);
        repeat split; congruence.
Qed.

End WithCrypto.

Lemma ECDSASigner_SignMessage_normalizes_witness :
  exists (out : list byte) (v' : byte),
    @ECDSASigner_SignMessage controller_test.toyCrypto
      (@NewECDSASigner controller_test.toyCrypto 7%N) [x68; x69]
    = Returns (out, None)
    /\ length out = 65
    /\ out !! 64%nat = Some v'
    /\ Byte.to_N v' = 28%N.
Proof.
  destruct (@ECDSASigner_SignMessage_normalizes controller_test.toyCrypto
              (@NewECDSASigner controller_test.toyCrypto 7%N) [x68; x69]
              (repeat xab 64 ++ [x01])%list x01 eq_refl eq_refl)
    as (out & v' & Hsig & Hlen & _ & Hv' & _ & Hsmall).
  exists out, v'. split; [exact Hsig |]. split; [exact Hlen |].
  split; [exact Hv' |]. apply Hsmall. discriminate.
Defined.

Lemma NewECDSASignerFromHex_prefix_optional_witness :
  @NewECDSASignerFromHex controller_test.toyCrypto "0xac0974be"
  = @NewECDSASignerFromHex controller_test.toyCrypto "ac0974be".
Proof.
  exact (@NewECDSASignerFromHex_prefix_optional controller_test.toyCrypto
           "ac0974be" eq_refl).
Defined.

Lemma KeystoreSigner_Signer_ECDSASigner_Signer_witness :
  @KeystoreSigner_Signer controller_test.toyCrypto
    (@Build_KeystoreSigner controller_test.toyCrypto 7%N (repeat x01 20))
  = @ECDSASigner_Signer controller_test.toyCrypto
      (@NewECDSASigner controller_test.toyCrypto 7%N).
Proof.
  exact (@KeystoreSigner_Signer_ECDSASigner_Signer controller_test.toyCrypto
           (@Build_KeystoreSigner controller_test.toyCrypto 7%N (repeat x01 20))
           (@NewECDSASigner controller_test.toyCrypto 7%N) eq_refl eq_refl).
Defined.

Lemma FromContext_keystore_failures_witness :
  exists e : error,
    result (run (@FromContext controller_test.toyCrypto signer_test.toyKeystore _
                   signer_test.memOS signer_test.keystoreContext) ∅)
    = Returns (ptrKeystoreSigner None, Some e)
    /\ Contains (Error e) "keystore" = true
    /\ @isNil controller_test.toyCrypto (ptrKeystoreSigner None) = false.
Proof.
  eexists. split; [reflexivity |].
  destruct (@FromContext_keystore_failures controller_test.toyCrypto
              signer_test.toyKeystore _ signer_test.memOS
              signer_test.keystoreContext ∅ (ptrKeystoreSigner None) _
              eq_refl ltac:(discriminate) eq_refl) as (Htext & _ & _ & Hptr).
  split; [exact Htext | exact (proj2 (Hptr ltac:(discriminate)))].
Defined.

End signer_more.

(** ** Release ledger client: further properties *)
Module eth_more.
Import eth eth_facts gostrings gostrings_facts.

(** Go through the three queries of a write operation. *)
Ltac write_op_queries c sig w :=
  let chainID := fresh "chainID" in
  let nonce := fresh "nonce" in
  let gasPrice := fresh "gasPrice" in
  destruct (ChainID (ethClient c) w) as [[chainID [?e|]] ?w]; simpl;
  [| match goal with
     | |- context [PendingNonceAt (ethClient c) (signer.Address_ sig) ?w1] =>
         destruct (PendingNonceAt (ethClient c) (signer.Address_ sig) w1)
           as [[nonce [?e|]] ?w]; simpl;
         [| match goal with
            | |- context [SuggestGasPrice (ethClient c) ?w2] =>
                destruct (SuggestGasPrice (ethClient c) w2)
                  as [[gasPrice [?e|]] ?w]; simpl
            end]
     end].

Section WithCrypto.
Context {crypto : Crypto}.

(** Without a signer the write operations fail at once: no
    transaction, and the ledger is not contacted at all. *)
Theorem write_operations_need_signer
    {W : Type} (c : Client W) (avs : Address) (opSetID : N) (uri : string)
    (artifacts : list Artifact) (upgradeByTime gasLimit : N) (w : W) :
  signer_ c = None ->
  run (PublishMetadataURI c avs opSetID uri gasLimit) w
  = ((None, Some (errorString "signer required for publishing metadata URI")), (w, []))
  /\ run (PushRelease c avs opSetID artifacts upgradeByTime gasLimit) w
     = ((None, Some (errorString "signer required for pushing releases")), (w, [])).
Proof.
  intros Hsig. unfold PublishMetadataURI, PushRelease, run. rewrite Hsig.
  split; reflexivity.
Qed.

(** X10. The write protocol of [PublishMetadataURI]: the chain id, the
    pending nonce of the signer's own address and the gas price are
    asked in this order, each once.  A query that fails is the last
    call: the operation ends there with an error and no transaction, and
    nothing is submitted.  Only when the three have answered is the
    contract called, once, for the operator set and the metadata URI
    that were given. *)
Theorem PublishMetadataURI_protocol
    {W : Type} (c : Client W) (sig : signer.Signer)
    (avs : Address) (opSetID : N) (uri : string) (gasLimit : N) (w : W) :
  signer_ c = Some sig ->
  let r := run (PublishMetadataURI c avs opSetID uri gasLimit) w in
  match ChainID (ethClient c) w with
  | (_, Some _, _) =>
      trace r = take 1 (queries sig) /\ exists e : error, result r = (None, Some e)
  | (_, None, w1) =>
      match PendingNonceAt (ethClient c) (signer.Address_ sig) w1 with
      | (_, Some _, _) =>
          trace r = take 2 (queries sig) /\ exists e : error, result r = (None, Some e)
      | (_, None, w2) =>
          match SuggestGasPrice (ethClient c) w2 with
          | (_, Some _, _) =>
              trace r = queries sig /\ exists e : error, result r = (None, Some e)
          | (_, None, _) =>
              exists opts : TransactOpts,
                trace r
                = (queries sig
                   ++ [CallPublishMetadataURI opts {| Avs := avs; Id := opSetID |} uri])%list
          end
      end
  end.
Proof.
  intros Hsig r. subst r. unfold PublishMetadataURI. rewrite Hsig. traced_step.
  write_op_queries c sig w.
  - split; [reflexivity | eauto].
  - split; [reflexivity | eauto].
  - split; [reflexivity | eauto].
  - match goal with
    | |- context [rm_PublishMetadataURI ?r ?o ?s ?u ?x] =>
        exists o; destruct (rm_PublishMetadataURI r o s u x) as [[tx [e|]] w4]
    end; reflexivity.
Qed.

(** X11. The write protocol of [PushRelease]: the chain id, the pending
    nonce of the signer's own address and the gas price are asked in
    this order, each once.  A query that fails is the last call: the
    operation ends there with an error and no transaction, and nothing
    is submitted.  Only when the three have answered is the contract
    called, once, for the operator set that was given. *)
Theorem PushRelease_protocol
    {W : Type} (c : Client W) (sig : signer.Signer)
    (avs : Address) (opSetID : N) (artifacts : list Artifact)
    (upgradeByTime gasLimit : N) (w : W) :
  signer_ c = Some sig ->
  let r := run (PushRelease c avs opSetID artifacts upgradeByTime gasLimit) w in
  match ChainID (ethClient c) w with
  | (_, Some _, _) =>
      trace r = take 1 (queries sig) /\ exists e : error, result r = (None, Some e)
  | (_, None, w1) =>
      match PendingNonceAt (ethClient c) (signer.Address_ sig) w1 with
      | (_, Some _, _) =>
          trace r = take 2 (queries sig) /\ exists e : error, result r = (None, Some e)
      | (_, None, w2) =>
          match SuggestGasPrice (ethClient c) w2 with
          | (_, Some _, _) =>
              trace r = queries sig /\ exists e : error, result r = (None, Some e)
          | (_, None, _) =>
              exists (opts : TransactOpts) (release : IReleaseManagerTypesRelease),
                trace r
                = (queries sig
                   ++ [CallPublishRelease opts {| Avs := avs; Id := opSetID |} release])%list
          end
      end
  end.
Proof.
  intros Hsig r. subst r. unfold PushRelease. rewrite Hsig. traced_step.
  write_op_queries c sig w.
  - split; [reflexivity | eauto].
  - split; [reflexivity | eauto].
  - split; [reflexivity | eauto].
  - match goal with
    | |- context [rm_PublishRelease ?r ?o ?s ?u ?x] =>
        exists o, u; destruct (rm_PublishRelease r o s u x) as [[tx [e|]] w4]
    end; reflexivity.
Qed.

(** X12. The transaction context: when the three queries succeed, the
    options submitted carry the signer's address as sender, the caller's
    gas limit and the suggested gas price, and their callback signs for
    the signer's own address with the chain id that was just fetched.
    The nonce they carry is the pending nonce converted to a signed
    64-bit number: the nonce itself below [2^63], and from [2^63] on the
    negative number [nonce - 2^64]. *)
Theorem PublishMetadataURI_transaction_context
    {W : Type} (c : Client W) (sig : signer.Signer)
    (avs : Address) (opSetID : N) (uri : string) (gasLimit : N)
    (w w1 w2 w3 : W) (chainID gasPrice : Z) (nonce : N) :
  signer_ c = Some sig ->
  ChainID (ethClient c) w = ((chainID, None), w1) ->
  PendingNonceAt (ethClient c) (signer.Address_ sig) w1 = ((nonce, None), w2) ->
  SuggestGasPrice (ethClient c) w2 = ((gasPrice, None), w3) ->
  exists opts : TransactOpts,
    trace (run (PublishMetadataURI c avs opSetID uri gasLimit) w)
    = (queries sig
       ++ [CallPublishMetadataURI opts {| Avs := avs; Id := opSetID |} uri])%list
    /\ From opts = signer.Address_ sig
    /\ GasLimit opts = gasLimit
    /\ GasPrice opts = gasPrice
    /\ ((nonce < 2 ^ 63)%N -> Nonce opts = Z.of_N nonce)
    /\ ((2 ^ 63 <= nonce < 2 ^ 64)%N -> Nonce opts = (Z.of_N nonce - 2 ^ 64)%Z)
    /\ forall tx : Transaction,
         Signer opts (signer.Address_ sig) tx = signer.SignTransaction sig tx chainID.
Proof.
  intros Hsig Hchain Hnonce Hgas. unfold PublishMetadataURI. rewrite Hsig.
  traced_step. rewrite Hchain. simpl. rewrite Hnonce. simpl. rewrite Hgas. simpl.
  match goal with
  | |- context [rm_PublishMetadataURI ?r ?o ?s ?u ?x] =>
      exists o; destruct (rm_PublishMetadataURI r o s u x) as [[tx [e|]] w4]
  end; simpl;
    (split; [reflexivity |]); (split; [reflexivity |]); (split; [reflexivity |]);
    (split; [reflexivity |]);
    (split;
     [ intros Hsmall; unfold int64_of_uint64;
       rewrite Z.mod_small by lia;
       destruct (Z.ltb_spec (Z.of_N nonce) (2 ^ 63)); [reflexivity | lia] |]);
    (split;
     [ intros Hlarge; unfold int64_of_uint64;
       rewrite Z.mod_small by lia;
       destruct (Z.ltb_spec (Z.of_N nonce) (2 ^ 63)); [lia | reflexivity]
     | intros tx'; unfold Address_eqb; rewrite bool_decide_eq_true_2 by reflexivity;
       reflexivity ]).
Qed.

(** X13. Every failure of [PublishMetadataURI] with a signer names the
    step that failed and keeps that step's own error: the error
    returned wraps, under the text of the first query that failed (chain
    id, nonce, gas price) or of the submission, exactly the error that
    this call answered, and comes without a transaction; a submission
    that succeeds returns its transaction. *)
Theorem PublishMetadataURI_failures_name_step
    {W : Type} (c : Client W) (sig : signer.Signer)
    (avs : Address) (opSetID : N) (uri : string) (gasLimit : N) (w : W) :
  signer_ c = Some sig ->
  let r := run (PublishMetadataURI c avs opSetID uri gasLimit) w in
  match ChainID (ethClient c) w with
  | (_, Some e, _) =>
      result r = (None, Some (wrapError ("failed to get chain ID: " ++ Error e) e))
  | (_, None, w1) =>
      match PendingNonceAt (ethClient c) (signer.Address_ sig) w1 with
      | (_, Some e, _) =>
          result r = (None, Some (wrapError ("failed to get nonce: " ++ Error e) e))
      | (_, None, w2) =>
          match SuggestGasPrice (ethClient c) w2 with
          | (_, Some e, _) =>
              result r = (None, Some (wrapError ("failed to get gas price: " ++ Error e) e))
          | (_, None, w3) =>
              forall (opts : TransactOpts) (operatorSet : OperatorSet) (uri' : string),
                CallPublishMetadataURI opts operatorSet uri' ∈ trace r ->
                match rm_PublishMetadataURI (rmContract c) opts operatorSet uri' w3 with
                | (_, Some e, _) =>
                    result r
                    = (None,
                       Some (wrapError ("failed to publish metadata URI: " ++ Error e) e))
                | (tx, None, _) => result r = (tx, None)
                end
          end
      end
  end.
Proof.
  intros Hsig r. subst r. unfold PublishMetadataURI. rewrite Hsig. traced_step.
  write_op_queries c sig w; try reflexivity.
  intros opts operatorSet uri' Hin.
  match goal with
  | H : context [rm_PublishMetadataURI ?r ?o ?s ?u ?x] |- _ =>
      assert (opts = o /\ operatorSet = s /\ uri' = u) as (-> & -> & ->)
  end.
  { revert Hin.
    match goal with
    | |- context [rm_PublishMetadataURI ?r ?o ?s ?u ?x] =>
        destruct (rm_PublishMetadataURI r o s u x) as [[tx0 [e0|]] w4]
    end; simpl; intros Hin; trace_cases Hin; injection Hin as -> -> ->; auto. }
  match goal with
  | |- context [rm_PublishMetadataURI ?r ?o ?s ?u ?x] =>
      destruct (rm_PublishMetadataURI r o s u x) as [[tx0 [e0|]] w4]
  end; reflexivity.
Qed.

(** X14. Every failure of [PushRelease] with a signer names the step
    that failed and keeps that step's own error: the error returned
    wraps, under the text of the first query that failed (chain id,
    nonce, gas price) or of the submission, exactly the error that this
    call answered, and comes without a transaction; a submission that
    succeeds returns its transaction. *)
Theorem PushRelease_failures_name_step
    {W : Type} (c : Client W) (sig : signer.Signer)
    (avs : Address) (opSetID : N) (artifacts : list Artifact)
    (upgradeByTime gasLimit : N) (w : W) :
  signer_ c = Some sig ->
  let r := run (PushRelease c avs opSetID artifacts upgradeByTime gasLimit) w in
  match ChainID (ethClient c) w with
  | (_, Some e, _) =>
      result r = (None, Some (wrapError ("failed to get chain ID: " ++ Error e) e))
  | (_, None, w1) =>
      match PendingNonceAt (ethClient c) (signer.Address_ sig) w1 with
      | (_, Some e, _) =>
          result r = (None, Some (wrapError ("failed to get nonce: " ++ Error e) e))
      | (_, None, w2) =>
          match SuggestGasPrice (ethClient c) w2 with
          | (_, Some e, _) =>
              result r = (None, Some (wrapError ("failed to get gas price: " ++ Error e) e))
          | (_, None, w3) =>
              forall (opts : TransactOpts) (operatorSet : OperatorSet)
                     (release : IReleaseManagerTypesRelease),
                CallPublishRelease opts operatorSet release ∈ trace r ->
                match rm_PublishRelease (rmContract c) opts operatorSet release w3 with
                | (_, Some e, _) =>
                    result r
                    = (None, Some (wrapError ("failed to publish release: " ++ Error e) e))
                | (tx, None, _) => result r = (tx, None)
                end
          end
      end
  end.
Proof.
  intros Hsig r. subst r. unfold PushRelease. rewrite Hsig. traced_step.
  write_op_queries c sig w; try reflexivity.
  intros opts operatorSet release Hin.
  match goal with
  | H : context [rm_PublishRelease ?r ?o ?s ?u ?x] |- _ =>
      assert (opts = o /\ operatorSet = s /\ release = u) as (-> & -> & ->)
  end.
  { revert Hin.
    match goal with
    | |- context [rm_PublishRelease ?r ?o ?s ?u ?x] =>
        destruct (rm_PublishRelease r o s u x) as [[tx0 [e0|]] w4]
    end; simpl; intros Hin; trace_cases Hin; injection Hin as -> -> ->; auto. }
  match goal with
  | |- context [rm_PublishRelease ?r ?o ?s ?u ?x] =>
      destruct (rm_PublishRelease r o s u x) as [[tx0 [e0|]] w4]
  end; reflexivity.
Qed.

Lemma convertRelease_artifacts (artifacts : list Artifact) (upgradeByTime : N) :
  convertRelease
    {| binding_Artifacts :=
         map (fun artifact =>
                {| binding_Registry := Registry artifact;
                   binding_Digest := Digest32 artifact |}) artifacts;
       binding_UpgradeByTime := upgradeByTime |}
  = releaseOf artifacts upgradeByTime.
Proof.
  unfold convertRelease, releaseOf. cbn [binding_Artifacts binding_UpgradeByTime].
  f_equal. rewrite map_map. induction artifacts as [|[reg dig] rest IH]; simpl.
  - reflexivity.
  - f_equal. exact IH.
Qed.

(** X15. What [PushRelease] submits reads back as what was pushed: the
    release handed to the contract, converted as the read operations
    convert it, is the given artifacts in their order with the given
    deadline, and it is submitted under the given operator set. *)
Theorem PushRelease_reads_back
    {W : Type} (c : Client W) (avs : Address) (opSetID : N)
    (artifacts : list Artifact) (upgradeByTime gasLimit : N) (w : W)
    (opts : TransactOpts) (operatorSet : OperatorSet)
    (release : IReleaseManagerTypesRelease) :
  CallPublishRelease opts operatorSet release
    ∈ trace (run (PushRelease c avs opSetID artifacts upgradeByTime gasLimit) w) ->
  convertRelease release = releaseOf artifacts upgradeByTime
  /\ operatorSet = {| Avs := avs; Id := opSetID |}.
Proof.
  unfold PushRelease. destruct (signer_ c) as [sig|].
  - traced_step.
    write_op_queries c sig w;
      [intros Hin; trace_cases Hin | intros Hin; trace_cases Hin
      | intros Hin; trace_cases Hin |].
    match goal with
    | |- context [rm_PublishRelease ?r ?o ?s ?u ?x] =>
        destruct (rm_PublishRelease r o s u x) as [[tx0 [e0|]] w4]
    end; simpl; intros Hin; trace_cases Hin; injection Hin as _ -> ->;
      (split; [apply convertRelease_artifacts | reflexivity]).
  - traced_step. intros Hin. trace_cases Hin.
Qed.

End WithCrypto.

Lemma write_operations_need_signer_witness :
  run (@PublishMetadataURI controller_test.toyCrypto unit eth_test.readOnlyClient
         controller_test.testAVS 1 "https://example.com/metadata.json" 300000) tt
  = ((None, Some (errorString "signer required for publishing metadata URI")), (tt, [])).
Proof.
  exact (proj1 (@write_operations_need_signer controller_test.toyCrypto unit
                  eth_test.readOnlyClient controller_test.testAVS 1
                  "https://example.com/metadata.json" [] 0 300000 tt eq_refl)).
Defined.

Lemma PublishMetadataURI_protocol_witness :
  let r := run (@PublishMetadataURI controller_test.toyCrypto unit
                  eth_test.nonceFailingClient
                  controller_test.testAVS 1 "https://example.com/metadata.json" 300000)
             tt in
  trace r = [CallChainID; CallPendingNonceAt (signer.Address_ eth_test.sampleSigner)]
  /\ exists e : error, result r = (None, Some e).
Proof.
  exact (@PublishMetadataURI_protocol controller_test.toyCrypto unit
           eth_test.nonceFailingClient eth_test.sampleSigner
           controller_test.testAVS 1 "https://example.com/metadata.json" 300000 tt
           eq_refl).
Defined.

Lemma PushRelease_protocol_witness :
  let r := run (@PushRelease controller_test.toyCrypto unit
                  eth_test.nonceFailingClient
                  controller_test.testAVS 1
                  [controller_test.firstArtifact] 200 300000) tt in
  trace r = [CallChainID; CallPendingNonceAt (signer.Address_ eth_test.sampleSigner)]
  /\ exists e : error, result r = (None, Some e).
Proof.
  exact (@PushRelease_protocol controller_test.toyCrypto unit
           eth_test.nonceFailingClient eth_test.sampleSigner
           controller_test.testAVS 1 [controller_test.firstArtifact] 200 300000 tt
           eq_refl).
Defined.

Lemma PublishMetadataURI_transaction_context_witness :
  exists opts : TransactOpts,
    trace (run (@PublishMetadataURI controller_test.toyCrypto unit
                  (eth_test.sampleClient (signer.Address_ eth_test.sampleSigner))
                  controller_test.testAVS 1 "https://example.com/metadata.json"
                  300000) tt)
    = (queries eth_test.sampleSigner
       ++ [CallPublishMetadataURI opts
             {| Avs := controller_test.testAVS; Id := 1 |}
             "https://example.com/metadata.json"])%list
    /\ From opts = signer.Address_ eth_test.sampleSigner
    /\ GasLimit opts = 300000%N
    /\ GasPrice opts = 1000000000%Z
    /\ Nonce opts = 0%Z.
Proof.
  destruct (@PublishMetadataURI_transaction_context controller_test.toyCrypto unit
              (eth_test.sampleClient (signer.Address_ eth_test.sampleSigner))
              eth_test.sampleSigner controller_test.testAVS 1
              "https://example.com/metadata.json" 300000 tt tt tt tt
              31337%Z 1000000000%Z 0%N eq_refl eq_refl eq_refl eq_refl)
    as (opts & Htr & Hfrom & Hlimit & Hprice & Hnonce & _ & _).
  exists opts. repeat (split; [assumption |]). apply Hnonce. reflexivity.
Defined.

Lemma PublishMetadataURI_failures_name_step_witness :
  result (run (@PublishMetadataURI controller_test.toyCrypto unit
                 eth_test.nonceFailingClient
                 controller_test.testAVS 1 "https://example.com/metadata.json" 300000)
            tt)
  = (None, Some (wrapError "failed to get nonce: connection refused"
                   (errorString "connection refused"))).
Proof.
  exact (@PublishMetadataURI_failures_name_step controller_test.toyCrypto unit
           eth_test.nonceFailingClient eth_test.sampleSigner
           controller_test.testAVS 1 "https://example.com/metadata.json" 300000 tt
           eq_refl).
Defined.

Lemma PushRelease_failures_name_step_witness :
  result (run (@PushRelease controller_test.toyCrypto unit
                 eth_test.nonceFailingClient
                 controller_test.testAVS 1 [controller_test.firstArtifact] 200 300000)
            tt)
  = (None, Some (wrapError "failed to get nonce: connection refused"
                   (errorString "connection refused"))).
Proof.
  exact (@PushRelease_failures_name_step controller_test.toyCrypto unit
           eth_test.nonceFailingClient eth_test.sampleSigner
           controller_test.testAVS 1 [controller_test.firstArtifact] 200 300000 tt
           eq_refl).
Defined.

Lemma PushRelease_reads_back_witness :
  exists opts operatorSet release,
    CallPublishRelease opts operatorSet release
      ∈ trace (run (@PushRelease controller_test.toyCrypto unit
                      (eth_test.sampleClient (signer.Address_ eth_test.sampleSigner))
                      controller_test.testAVS 1
                      [controller_test.firstArtifact; controller_test.secondArtifact]
                      200 300000) tt)
    /\ convertRelease release = controller_test.multiRelease.
Proof.
  eexists _, _, _. split.
  - cbv. do 3 apply list_elem_of_further. apply list_elem_of_here.
  - eapply (fun H => proj1 (@PushRelease_reads_back controller_test.toyCrypto unit
                              (eth_test.sampleClient
                                 (signer.Address_ eth_test.sampleSigner))
                              controller_test.testAVS 1
                              [controller_test.firstArtifact;
                               controller_test.secondArtifact]
                              200 300000 tt _ _ _ H)).
    cbv. do 3 apply list_elem_of_further. apply list_elem_of_here.
Defined.

End eth_more.

(** ** Controller: further properties *)
Module controller_more.
Import controller controller_facts gostrings gostrings_facts eth_facts.

Section WithCommon.
Context {common : Common}.

(** X16. The calls of [Execute]: one ledger call first; then at most one
    pull and, only after it, at most one run of the same reference.  An
    execution that does not reach the run has failed. *)
Theorem Execute_call_discipline {W} (c : Controller W) (cfg : RunConfig) (w : W) :
  let r := run (Execute c cfg) w in
  (result r <> None
   /\ (trace r = [resolutionCall cfg]
       \/ exists reference, trace r = [resolutionCall cfg; CallPull reference]))
  \/ (exists reference opts,
        trace r = [resolutionCall cfg; CallPull reference; CallRun reference opts]).
Proof.
  intros r. subst r.
  destruct (resolve c cfg w) as [[[rel relID] [e|]] w1] eqn:Hres.
  - left. destruct (Execute_unresolved c cfg w Hres) as [Hne Htr].
    split; [exact Hne | left; exact Htr].
  - rewrite (Execute_resolved c cfg w Hres).
    destruct (eth.Artifacts rel) as [|a rest] eqn:Hart.
    + left. unfold executeRelease. rewrite Hart.
      split; [discriminate | left; reflexivity].
    + destruct (executeRelease_calls c cfg rel relID w1 [resolutionCall cfg] Hart)
        as [[Hfail [Htr|Htr]]|Htr].
      * left. split; [exact Hfail | left; exact Htr].
      * left. split; [exact Hfail | right; eexists; exact Htr].
      * right. eexists _, _. exact Htr.
Qed.

(** X17. A failed pull ends the execution: the error wraps the runtime's
    error, and the run is never asked for. *)
Theorem Execute_pull_failure
    {W} (c : Controller W) (cfg : RunConfig) (w w1 w2 : W)
    (rel : eth.Release) (relID : N) (a : eth.Artifact) (rest : list eth.Artifact)
    (reference : string) (e : error) :
  resolve c cfg w = ((rel, relID, None), w1) ->
  eth.Artifacts rel = a :: rest ->
  ref.BuildReference (eth.Registry a) (ref.Digest32ToSha256String (eth.Digest32 a))
  = (reference, None) ->
  docker.Pull (Docker c) reference w1 = (Some e, w2) ->
  run (Execute c cfg) w
  = (Some (wrapError ("failed to pull image: " ++ Error e) e),
     (w2, [resolutionCall cfg; CallPull reference])).
Proof.
  intros Hres Hart Href Hpull. rewrite (Execute_resolved c cfg w Hres).
  unfold executeRelease. rewrite Hart, Href. traced_step. rewrite Hpull. reflexivity.
Qed.

Lemma append_assoc (s t u : string) : (s ++ t) ++ u = s ++ t ++ u.
Proof.
  induction s as [|ch s IH]; [reflexivity |].
  change (String ch ((s ++ t) ++ u) = String ch (s ++ t ++ u)). f_equal. exact IH.
Qed.

(** X18. A ledger failure that [Execute] does not recognise is passed on
    under the name of the operation: its text ends the message and the
    error itself is kept as the cause. *)
Theorem Execute_unrecognized_failure_kept
    {W} (c : Controller W) (cfg : RunConfig) (w w1 : W)
    (rel : eth.Release) (relID : N) (err : error) :
  resolve c cfg w = ((rel, relID, Some err), w1) ->
  Contains (Error err) "array out-of-bounds" = false ->
  (ReleaseID cfg = None -> saysNoReleases err = false) ->
  exists operation : string,
    result (run (Execute c cfg) w) = Some (wrapError (operation ++ Error err) err)
    /\ operation
       = match ReleaseID cfg with
         | None => "failed to get latest release: "
         | Some releaseID =>
             "failed to get release " ++ gofmt.Sprintf_d releaseID ++ ": "
         end.
Proof.
  unfold resolve, Execute, run, saysNoReleases.
  destruct (ReleaseID cfg) as [rid|]; intros Hres Hoob Hsays.
  - exists ("failed to get release " ++ gofmt.Sprintf_d rid ++ ": ").
    split; [| reflexivity]. traced_step.
    destruct (eth.GetRelease (RM c) (AVS cfg) (OperatorSetID cfg) rid w)
      as [[rel' err'] w']. injection Hres as E1 E2 E3 E4. subst rel' err' w' relID.
    simpl. rewrite Hoob. unfold result. cbn [fst].
    rewrite <- !append_assoc. reflexivity.
  - exists "failed to get latest release: ". split; [| reflexivity].
    traced_step. rewrite Hres. simpl. rewrite (Hsays eq_refl), Hoob. reflexivity.
Qed.

(** A specific release id that the ledger reports out of range gives
    the failure that names that id, after the one ledger call. *)
Theorem Execute_release_not_found
    {W} (c : Controller W) (cfg : RunConfig) (w w1 : W)
    (rel : eth.Release) (relID releaseID : N) (err : error) :
  ReleaseID cfg = Some releaseID ->
  resolve c cfg w = ((rel, relID, Some err), w1) ->
  Contains (Error err) "array out-of-bounds" = true ->
  run (Execute c cfg) w
  = (Some (errorString ("release ID " ++ gofmt.Sprintf_d releaseID ++ " does not exist")),
     (w1, [CallGetRelease (AVS cfg) (OperatorSetID cfg) releaseID])).
Proof.
  unfold resolve, Execute, run. intros -> Hres Hoob. traced_step.
  destruct (eth.GetRelease (RM c) (AVS cfg) (OperatorSetID cfg) releaseID w)
    as [[rel' err'] w']. injection Hres as -> -> -> ->. simpl. rewrite Hoob.
  reflexivity.
Qed.

Lemma referenceOf_passthrough (a : eth.Artifact) :
  Contains (eth.Registry a) "@sha256:" = true -> referenceOf a = eth.Registry a.
Proof.
  intros Hc. unfold referenceOf, ref.BuildReference.
  destruct (String.eqb_spec (eth.Registry a) "") as [E|_].
  - rewrite E in Hc. discriminate Hc.
  - rewrite Hc. reflexivity.
Qed.

(** X19. When the first artifact's registry already embeds a digest, the
    runtime is given that registry string as it is: the on-chain digest
    of the artifact does not enter the pull or the run. *)
Theorem Execute_passthrough_ignores_digest
    {W} (c : Controller W) (cfg : RunConfig) (w w1 : W)
    (rel : eth.Release) (relID : N) (a : eth.Artifact) (rest : list eth.Artifact) :
  resolve c cfg w = ((rel, relID, None), w1) ->
  eth.Artifacts rel = a :: rest ->
  Contains (eth.Registry a) "@sha256:" = true ->
  forall call : Call,
    call ∈ trace (run (Execute c cfg) w) ->
    isRuntimeCall call = true ->
    call = CallPull (eth.Registry a)
    \/ call = CallRun (eth.Registry a) (runOptionsOf cfg relID (eth.UpgradeByTime rel)).
Proof.
  intros Hres Hart Hc call Hin Hrt.
  destruct (Execute_runtime_calls c cfg w Hres Hart) as [Hcalls _].
  rewrite <- (referenceOf_passthrough a Hc). exact (Hcalls call Hin Hrt).
Qed.

End WithCommon.
End controller_more.

(** ** Container runtime: the [docker] runner *)
Module docker_more.
Import docker gostrings gostrings_facts.

Lemma fold_left_env (entries : list (string * string)) (args : list string) :
  fold_left (fun (args : list string) (kv : string * string) =>
               (args ++ ["-e"; (fst kv ++ "=" ++ snd kv)%string])%list) entries args
  = (args ++ envFlags entries)%list.
Proof.
  revert args. induction entries as [|kv entries IH]; intros args; simpl.
  - rewrite app_nil_r. reflexivity.
  - rewrite IH, <- app_assoc. reflexivity.
Qed.

Lemma length_envFlags (entries : list (string * string)) :
  length (envFlags entries) = 2 * length entries.
Proof. induction entries as [|kv entries IH]; simpl; [reflexivity | rewrite IH; lia]. Qed.

Lemma envFlags_app (l1 l2 : list (string * string)) :
  envFlags (l1 ++ l2) = (envFlags l1 ++ envFlags l2)%list.
Proof. unfold envFlags. apply flat_map_app. Qed.

(** The accumulated argument vector, flag group by flag group. *)
Lemma runArgs_flags (entries : list (string * string)) (reference : string)
    (opts : RunOptions) :
  runArgs entries reference opts
  = ("run" :: (nameFlags opts ++ detachFlags opts ++ envFlags entries)
       ++ reference :: Cmd opts)%list.
Proof.
  unfold runArgs, nameFlags, detachFlags. rewrite fold_left_env.
  destruct (String.eqb (Name opts) ""), (Detached opts), (Cmd opts) as [|c0 cmd];
    cbn [negb length Nat.ltb Nat.leb app]; rewrite <- ?app_assoc; cbn [app];
    rewrite ?app_nil_r; reflexivity.
Qed.

(** X20. The arguments of [docker run]: after ["run"] come only flags, then
    the reference, then exactly the command of the options.  Whatever
    order the runtime yields the environment in, every variable of the
    options is passed once, as ["-e"] followed by [KEY=VALUE]. *)
Theorem runArgs_shape (entries : list (string * string)) (reference : string)
    (opts : RunOptions) :
  entries ≡ₚ map_to_list (Env opts) ->
  exists flags : list string,
    runArgs entries reference opts = ("run" :: flags ++ reference :: Cmd opts)%list
    /\ length flags
       = length (nameFlags opts) + length (detachFlags opts) + 2 * size (Env opts)
    /\ forall k v : string,
         Env opts !! k = Some v ->
         exists pre post : list string,
           flags = (pre ++ "-e" :: (k ++ "=" ++ v)%string :: post)%list.
Proof.
  intros Hperm. exists (nameFlags opts ++ detachFlags opts ++ envFlags entries)%list.
  split; [apply runArgs_flags |]. split.
  - rewrite !length_app, length_envFlags, (Permutation_length Hperm), length_map_to_list.
    lia.
  - intros k v Hkv. apply elem_of_map_to_list in Hkv. rewrite <- Hperm in Hkv.
    apply list_elem_of_split in Hkv as (l1 & l2 & ->).
    exists (nameFlags opts ++ detachFlags opts ++ envFlags l1)%list, (envFlags l2).
    rewrite envFlags_app, <- !app_assoc. reflexivity.
Qed.

(** X21. When the container engine fails, the error of the runner carries
    both the process error and everything the engine printed. *)
Theorem Runner_failures_carry_output
    {W} (h : Host W) (reference : string) (opts : RunOptions) (w w' : W)
    (args : list string) (out : string) (err : error) :
  CombinedOutput h "docker" args w = ((out, Some err), w') ->
  (args = ["pull"; reference] ->
   exists e, Runner_Pull h reference w = (Some e, w')
             /\ Contains (Error e) (Error err) = true
             /\ Contains (Error e) out = true)
  /\ (args = runArgs (rangeEnv h (Env opts) w) reference opts ->
      exists e, Runner_Run h reference opts w = (Some e, w')
                /\ Contains (Error e) (Error err) = true
                /\ Contains (Error e) out = true).
Proof.
  intros Hexec. split; intros ->.
  - unfold Runner_Pull. rewrite Hexec. eexists. split; [reflexivity |].
    cbn [Error]. split.
    + apply (Contains_middle "docker pull failed: ").
    + do 2 apply Contains_app_r. apply Contains_app_r, Contains_refl.
  - unfold Runner_Run. rewrite Hexec. eexists. split; [reflexivity |].
    cbn [Error]. split.
    + apply (Contains_middle "docker run failed: ").
    + do 2 apply Contains_app_r. apply Contains_app_r, Contains_refl.
Qed.

Lemma runArgs_shape_witness :
  exists flags : list string,
    runArgs (map_to_list (Env net_test.sampleOptions)) "alpine@sha256:00"
      net_test.sampleOptions
    = ("run" :: flags ++ ["alpine@sha256:00"; "serve"])%list
    /\ length flags = 5.
Proof.
  destruct (@runArgs_shape (map_to_list (Env net_test.sampleOptions))
              "alpine@sha256:00" net_test.sampleOptions (Permutation_refl _))
    as (flags & Hargs & Hlen & _).
  exists flags. split; [exact Hargs | exact Hlen].
Defined.

Lemma Runner_failures_carry_output_witness :
  exists e,
    Runner_Pull (net_test.brokenHost "manifest unknown") "alpine@sha256:00" tt
    = (Some e, tt)
    /\ Contains (Error e) "manifest unknown" = true.
Proof.
  destruct (proj1 (@Runner_failures_carry_output unit
                     (net_test.brokenHost "manifest unknown") "alpine@sha256:00"
                     net_test.sampleOptions tt tt ["pull"; "alpine@sha256:00"]
                     "manifest unknown" (errorString "exit status 1") eq_refl) eq_refl)
    as (e & Hrun & _ & Hout).
  exists e. split; [exact Hrun | exact Hout].
Defined.

End docker_more.

(** ** Chain defaults and connections *)
Module defaults_facts.
Import eth eth_facts.

(** X22. Default contract addresses exist for exactly three chains. *)
Theorem GetDefaultContractAddresses_known (chainID : N) :
  (is_Some (fst (GetDefaultContractAddresses chainID)) <-> chainID ∈ knownChains)
  /\ (snd (GetDefaultContractAddresses chainID) = None <-> chainID ∈ knownChains).
Proof.
  unfold GetDefaultContractAddresses, knownChains.
  destruct (N.eqb_spec chainID 11155111) as [->|H1];
    [split; (split; [intros _; repeat constructor | intros _; simpl; eauto]) |].
  destruct (N.eqb_spec chainID 31337) as [->|H2];
    [split; (split; [intros _; repeat constructor | intros _; simpl; eauto]) |].
  destruct (N.eqb_spec chainID 1) as [->|H3];
    [split; (split; [intros _; repeat constructor | intros _; simpl; eauto]) |].
  assert (chainID ∉ [1%N; 11155111%N; 31337%N]) as Hnot.
  { intros Hin. repeat (apply elem_of_cons in Hin as [Hin|Hin]; [congruence |]).
    apply elem_of_nil in Hin. exact Hin. }
  simpl. split; split.
  - intros [x Hx]. discriminate Hx.
  - intros Hin. contradiction.
  - discriminate.
  - intros Hin. contradiction.
Qed.

Lemma GetDefaultContractAddresses_answers (chainID : N) :
  GetDefaultContractAddresses chainID <> (None, None).
Proof.
  unfold GetDefaultContractAddresses.
  repeat match goal with
         | |- context [N.eqb ?a ?b] => destruct (N.eqb a b)
         end; discriminate.
Qed.

(** Go through the collaborator answers of a traced network computation. *)
Ltac net_cases :=
  repeat (simpl;
          match goal with
          | |- context [Dial ?n ?u ?w] =>
              destruct (Dial n u w) as [[?client|?e] ?w]
          | |- context [conn_ChainID ?n ?c ?w] =>
              destruct (conn_ChainID n c w) as [[?chainID [?e|]] ?w]
          | |- context [conn_Close ?n ?c ?w] =>
              destruct (conn_Close n c w) as [[] ?w]
          | |- context [GetDefaultContractAddresses ?i] =>
              destruct (GetDefaultContractAddresses i) as [[?d|] [?e|]]
          end).

Section WithHexAddress.
Context {hexAddress : HexAddress}.

(** X23. [GetReleaseManagerAddress] looks at the text it is given, not
    at the address the text denotes.  A text that is not empty and is
    not the 42-character spelling of the zero address is parsed and
    returned as it is, and the network is left alone; the empty text and
    that one spelling make the function dial the endpoint first. *)
Theorem GetReleaseManagerAddress_explicit
    {W Conn} (net : Network W Conn) (rpcURL providedAddress : string) (w : W) :
  (providedAddress <> ""
   /\ providedAddress <> "0x0000000000000000000000000000000000000000"
   -> run (GetReleaseManagerAddress net rpcURL providedAddress) w
      = ((HexToAddress providedAddress, None), (w, [])))
  /\ (providedAddress = ""
      \/ providedAddress = "0x0000000000000000000000000000000000000000"
      -> exists (client : option Conn) (rest : list (NetCall Conn)),
           trace (run (GetReleaseManagerAddress net rpcURL providedAddress) w)
           = CallDial rpcURL client :: rest).
Proof.
  unfold GetReleaseManagerAddress, run.
  destruct (String.eqb_spec providedAddress "") as [E1|N1];
    [| destruct (String.eqb_spec providedAddress
                   "0x0000000000000000000000000000000000000000") as [E2|N2]];
    cbn [negb andb].
  - split; [intros [H _]; congruence |]. intros _.
    unfold GetChainID. traced_step. unfold callr. net_cases; eauto.
  - split; [intros [_ H]; congruence |]. intros _.
    unfold GetChainID. traced_step. unfold callr. net_cases; eauto.
  - split; [reflexivity | intros [H|H]; congruence].
Qed.

(** X24. Every client that is opened is closed again before the function
    returns, on every path, the innermost first. *)
Theorem connections_closed
    {W Conn} (net : Network W Conn) (rpcURL address : string) (w : W) :
  closed (trace (run (GetChainID net rpcURL) w))
  = rev (opened (trace (run (GetChainID net rpcURL) w)))
  /\ closed (trace (run (GetReleaseManagerAddress net rpcURL address) w))
     = rev (opened (trace (run (GetReleaseManagerAddress net rpcURL address) w)))
  /\ closed (trace (run (GetNetworkInfo net rpcURL address) w))
     = rev (opened (trace (run (GetNetworkInfo net rpcURL address) w))).
Proof.
  split; [| split].
  - unfold GetChainID. traced_step. unfold callr. net_cases; reflexivity.
  - unfold GetReleaseManagerAddress, GetChainID.
    destruct (negb (String.eqb address "")
              && negb (String.eqb address "0x0000000000000000000000000000000000000000"));
      [reflexivity |].
    traced_step. unfold callr. net_cases; reflexivity.
  - unfold GetNetworkInfo, GetReleaseManagerAddress, GetChainID.
    destruct (negb (String.eqb address "")
              && negb (String.eqb address "0x0000000000000000000000000000000000000000"));
      traced_step; unfold callr; net_cases; reflexivity.
Qed.

End WithHexAddress.

Lemma GetReleaseManagerAddress_explicit_witness :
  run (@GetReleaseManagerAddress net_test.textAddress nat nat net_test.localNetwork
         "http://localhost:8545" "0x0") 0
  = ((@HexToAddress net_test.textAddress "0x0", None), (0, []))
  /\ exists (client : option nat) (rest : list (NetCall nat)),
       trace (run (@GetReleaseManagerAddress net_test.textAddress nat nat
                     net_test.localNetwork "http://localhost:8545"
                     "0x0000000000000000000000000000000000000000") 0)
       = CallDial "http://localhost:8545" client :: rest.
Proof.
  split.
  - apply (@GetReleaseManagerAddress_explicit net_test.textAddress nat nat
             net_test.localNetwork "http://localhost:8545" "0x0" 0).
    split; discriminate.
  - apply (@GetReleaseManagerAddress_explicit net_test.textAddress nat nat
             net_test.localNetwork "http://localhost:8545"
             "0x0000000000000000000000000000000000000000" 0).
    right. reflexivity.
Defined.

(** The nested lookup of [GetNetworkInfo] on the sample network. *)
Example GetNetworkInfo_scenario :
  trace (run (@GetNetworkInfo net_test.textAddress nat nat net_test.localNetwork
                "http://localhost:8545" "") 0)
  = [ CallDial "http://localhost:8545" (Some 0); CallConnChainID 0;
      CallDial "http://localhost:8545" (Some 1); CallConnChainID 1; CallClose 1;
      CallClose 0 ]
  /\ option_map info_ChainName
       (fst (result (run (@GetNetworkInfo net_test.textAddress nat nat
                            net_test.localNetwork "http://localhost:8545" "") 0)))
     = Some "Local Network".
Proof. split; reflexivity. Qed.

End defaults_facts.

(** ** The controller over the ledger client *)
Module client_controller.
Import controller controller_facts gostrings gostrings_facts eth_facts.

Section WithCommon.
Context {common : Common}.

(** X25. The classification survives the client's wrapping: when the
    contract call for the latest release fails with a text that says
    that no release exists, [Execute] over the ledger client answers
    with the guidance for publishing a first release and asks nothing of
    the runtime. *)
Theorem Execute_Client_no_releases
    {W} (rmContract : eth.RmCaller W) (dockerRunner : docker.Docker W)
    (cfg : RunConfig) (w w1 : W)
    (releaseID : N) (contractRelease : eth.IReleaseManagerTypesRelease) (err : error) :
  ReleaseID cfg = None ->
  eth.rm_GetLatestRelease rmContract
    {| eth.Avs := AVS cfg; eth.Id := OperatorSetID cfg |} w
  = ((releaseID, contractRelease, Some err), w1) ->
  saysNoReleases err = true ->
  run (Execute (New (eth.Client_ReleaseManagerClient rmContract) dockerRunner) cfg) w
  = (Some (NoReleasesAvailable (AVS cfg) (OperatorSetID cfg)),
     (w1, [CallGetLatestRelease (AVS cfg) (OperatorSetID cfg)])).
Proof.
  intros Hlatest Hcall Hsays.
  assert (resolutionCall cfg = CallGetLatestRelease (AVS cfg) (OperatorSetID cfg)) as <-.
  { unfold resolutionCall. rewrite Hlatest. reflexivity. }
  apply (@Execute_latest_no_releases _ W _ cfg w w1 eth.zeroRelease 0%N
           (wrapError ("failed to get latest release: " ++ Error err) err));
    [exact Hlatest | |].
  - unfold resolve. rewrite Hlatest. cbn [New RM eth.Client_ReleaseManagerClient
      eth.GetLatestRelease]. unfold eth.Client_GetLatestRelease. rewrite Hcall.
    reflexivity.
  - unfold saysNoReleases in *. cbn [Error].
    apply orb_true_iff in Hsays as [Hu|Hn]; apply orb_true_iff; [left | right];
      apply Contains_app_r; assumption.
Qed.

(** X26. The classification survives the client's wrapping for a specific
    id too: an out-of-bounds failure of the contract call reaches the
    operator, through the ledger client, as the failure that names the
    id, after that one call. *)
Theorem Execute_Client_release_not_found
    {W} (rmContract : eth.RmCaller W) (dockerRunner : docker.Docker W)
    (cfg : RunConfig) (w w1 : W)
    (releaseID : N) (contractRelease : eth.IReleaseManagerTypesRelease) (err : error) :
  ReleaseID cfg = Some releaseID ->
  eth.rm_GetRelease rmContract
    {| eth.Avs := AVS cfg; eth.Id := OperatorSetID cfg |} releaseID w
  = ((contractRelease, Some err), w1) ->
  Contains (Error err) "array out-of-bounds" = true ->
  run (Execute (New (eth.Client_ReleaseManagerClient rmContract) dockerRunner) cfg) w
  = (Some (errorString ("release ID " ++ gofmt.Sprintf_d releaseID ++ " does not exist")),
     (w1, [CallGetRelease (AVS cfg) (OperatorSetID cfg) releaseID])).
Proof.
  intros Hid Hcall Hoob. unfold Execute, run. rewrite Hid. traced_step.
  unfold eth.Client_GetRelease. rewrite Hcall. simpl.
  change ("" ++ Error err) with (Error err). rewrite Hoob. reflexivity.
Qed.

End WithCommon.

Lemma Execute_Client_no_releases_witness :
  result (run (@Execute controller_test.plainHex _
                 (New (eth.Client_ReleaseManagerClient
                         (eth_test.failingCaller controller_test.underflowError))
                    controller_test.captureDocker_docker)
                 (controller_test.cfgWith None ∅)) controller_test.newCaptureDocker)
  = Some (@NoReleasesAvailable controller_test.plainHex controller_test.testAVS 1).
Proof.
  exact (f_equal fst
           (@Execute_Client_no_releases controller_test.plainHex _
              (eth_test.failingCaller controller_test.underflowError)
              controller_test.captureDocker_docker (controller_test.cfgWith None ∅)
              controller_test.newCaptureDocker controller_test.newCaptureDocker
              0%N {| eth.binding_Artifacts := []; eth.binding_UpgradeByTime := 0 |}
              controller_test.underflowError eq_refl eq_refl eq_refl)).
Defined.

Lemma Execute_Client_release_not_found_witness :
  result (run (@Execute controller_test.plainHex _
                 (New (eth.Client_ReleaseManagerClient
                         (eth_test.failingCaller
                            (errorString "panic: array out-of-bounds access (0x32)")))
                    controller_test.captureDocker_docker)
                 (controller_test.cfgWith (Some 42%N) ∅))
            controller_test.newCaptureDocker)
  = Some (errorString "release ID 42 does not exist").
Proof.
  exact (f_equal fst
           (@Execute_Client_release_not_found controller_test.plainHex _
              (eth_test.failingCaller
                 (errorString "panic: array out-of-bounds access (0x32)"))
              controller_test.captureDocker_docker
              (controller_test.cfgWith (Some 42%N) ∅)
              controller_test.newCaptureDocker controller_test.newCaptureDocker
              42%N {| eth.binding_Artifacts := []; eth.binding_UpgradeByTime := 0 |}
              (errorString "panic: array out-of-bounds access (0x32)")
              eq_refl eq_refl eq_refl)).
Defined.

End client_controller.

(** ** Further scenarios of the controller *)
Module scenarios_more.
Import controller controller_test controller_more.
#[local] Existing Instance plainHex.

Lemma Execute_pull_failure_witness :
  result (run (Execute (controllerOf (mockLatest latestRelease 7)) (cfgWith None ∅))
            (failingPull (errorString "manifest unknown")))
  = Some (wrapError "failed to pull image: manifest unknown"
            (errorString "manifest unknown"))
  /\ trace (run (Execute (controllerOf (mockLatest latestRelease 7)) (cfgWith None ∅))
              (failingPull (errorString "manifest unknown")))
     = [ CallGetLatestRelease testAVS 1;
         CallPull "ghcr.io/org/image@sha256:aaaaaaaaaaaaaaaaaaaaaaaaaaaaaaaaaaaaaaaaaaaaaaaaaaaaaaaaaaaaaaaa" ].
Proof.
  pose proof (@Execute_pull_failure plainHex _
                (controllerOf (mockLatest latestRelease 7)) (cfgWith None ∅)
                (failingPull (errorString "manifest unknown"))
                (failingPull (errorString "manifest unknown"))
                _ latestRelease 7%N _ _ _ (errorString "manifest unknown")
                eq_refl eq_refl eq_refl eq_refl) as Hrun.
  split; [exact (f_equal fst Hrun) | exact (f_equal (fun r => snd (snd r)) Hrun)].
Defined.

Lemma Execute_unrecognized_failure_kept_witness :
  exists operation : string,
    result (run (Execute (controllerOf (mockFailing (errorString "network error")))
                   (cfgWith None ∅)) newCaptureDocker)
    = Some (wrapError (operation ++ "network error") (errorString "network error"))
    /\ operation = "failed to get latest release: ".
Proof.
  exact (@Execute_unrecognized_failure_kept plainHex _
           (controllerOf (mockFailing (errorString "network error"))) (cfgWith None ∅)
           newCaptureDocker newCaptureDocker zeroRelease 0%N
           (errorString "network error") eq_refl eq_refl (fun _ => eq_refl)).
Defined.

Lemma Execute_release_not_found_witness :
  result (run (Execute
                 (controllerOf (mockFailing (errorString
                    "execution reverted: panic: array out-of-bounds access (0x32)")))
                 (cfgWith (Some 42%N) ∅)) newCaptureDocker)
  = Some (errorString "release ID 42 does not exist").
Proof.
  exact (f_equal fst
           (@Execute_release_not_found plainHex _
              (controllerOf (mockFailing (errorString
                 "execution reverted: panic: array out-of-bounds access (0x32)")))
              (cfgWith (Some 42%N) ∅) newCaptureDocker newCaptureDocker
              zeroRelease 42%N 42%N
              (errorString "execution reverted: panic: array out-of-bounds access (0x32)")
              eq_refl eq_refl eq_refl)).
Defined.

Lemma Execute_passthrough_ignores_digest_witness :
  CallPull "ghcr.io/org/image@sha256:cccc"
  = CallPull (eth.Registry qualifiedArtifact)
  \/ CallPull "ghcr.io/org/image@sha256:cccc"
     = CallRun (eth.Registry qualifiedArtifact) (runOptionsOf (cfgWith None ∅) 5 100).
Proof.
  apply (@Execute_passthrough_ignores_digest plainHex _
           (controllerOf (mockLatest qualifiedRelease 5)) (cfgWith None ∅)
           newCaptureDocker newCaptureDocker qualifiedRelease 5%N qualifiedArtifact []
           eq_refl eq_refl eq_refl (CallPull "ghcr.io/org/image@sha256:cccc")).
  - cbv. apply list_elem_of_further, list_elem_of_here.
  - reflexivity.
Defined.

End scenarios_more.

(** ** Configuration file and [flickr context set] *)
Module contextcmd_facts.
Import config contextcmd gostrings gostrings_facts eth_facts.

(** The signer fields of a context. *)
Lemma signerSettingsOK_ext (c c' : Context) :
  ECDSAPrivateKey c' = ECDSAPrivateKey c ->
  KeystorePath c' = KeystorePath c ->
  KeystorePassword c' = KeystorePassword c ->
  signerSettingsOK c -> signerSettingsOK c'.
Proof. unfold signerSettingsOK. intros -> -> ->. tauto. Qed.

Lemma filter_no_write (t : list goos.Call) :
  Forall (fun call => isWriteFile call = false) t ->
  filter (fun call => isWriteFile call = true) t = [].
Proof.
  induction 1 as [|call t Hcall _ IH]; [reflexivity |].
  rewrite filter_cons. destruct (decide (isWriteFile call = true)); [congruence | exact IH].
Qed.

Section WithJSON.
Context {json : JSON}.

(** The three functions of the configuration file only add calls to the
    trace; the first two never write a file, and [SaveConfig] writes
    nothing but the serialised configuration. *)
Lemma GetConfigPath_trace {W} (os : goos.OS W) (w : W) (tr : list goos.Call) :
  exists r w' t,
    GetConfigPath os (w, tr) = (r, (w', (tr ++ t)%list))
    /\ Forall (fun call => isWriteFile call = false) t.
Proof.
  unfold GetConfigPath. traced_step.
  destruct (goos.UserHomeDir os w) as [[homeDir [e|]] w1]; simpl.
  - eexists _, _, [_]. split; [reflexivity | repeat constructor].
  - destruct (goos.MkdirAll os (goos.Join os homeDir ".flickr") 493 w1) as [[e|] w2];
      simpl; rewrite <- app_assoc;
      (eexists _, _, [_; _]; split; [reflexivity | repeat constructor]).
Qed.

Lemma LoadConfig_trace {W} (os : goos.OS W) (w : W) (tr : list goos.Call) :
  exists r w' t,
    LoadConfig os (w, tr) = (r, (w', (tr ++ t)%list))
    /\ Forall (fun call => isWriteFile call = false) t.
Proof.
  unfold LoadConfig. unfold mbind at 1, Traced_bind.
  destruct (GetConfigPath_trace os w tr) as ([path err] & w1 & t & -> & Ht).
  destruct err as [e|]; [eexists _, _, t; split; [reflexivity | exact Ht] |].
  traced_step.
  destruct (goos.ReadFile os path w1) as [[data [e|]] w2]; simpl.
  - destruct (goos.IsNotExist os e); rewrite <- app_assoc;
      (eexists _, _, (t ++ [_])%list; split;
       [reflexivity | apply Forall_app; split; [exact Ht | repeat constructor]]).
  - destruct (Unmarshal data) as [cfg [e|]]; rewrite <- app_assoc;
      (eexists _, _, (t ++ [_])%list; split;
       [reflexivity | apply Forall_app; split; [exact Ht | repeat constructor]]).
Qed.





(** X28. The configuration file is written at most once, and only when all
    flags were applied: a run that writes either succeeds or fails in
    saving.  A refused flag, a missing context or a panic leave the file
    as it was. *)
Theorem contextSetAction_writes_after_validation
    {W} (os : goos.OS W) (flags : SetFlags) (w : W) :
  let r := run (contextSetAction os flags) w in
  length (filter (fun call => isWriteFile call = true) (trace r)) <= 1
  /\ ((exists call, call ∈ trace r /\ isWriteFile call = true) ->
      result r = Returns None
      \/ exists cause : error,
           result r
           = Returns (Some (wrapError ("failed to save config: " ++ Error cause) cause))).
Proof.
  intros r. subst r. unfold run.
  remember (contextSetAction os flags (w, [])) as r eqn:Hr.
  unfold result, trace. revert Hr. unfold contextSetAction.
  unfold mbind at 1, Traced_bind.
  destruct (LoadConfig_trace os w []) as ([cfg0 err0] & w1 & t & -> & Ht).
  cbn [app].
  pose proof (filter_no_write Ht) as Hfilter.
  rewrite Forall_forall in Ht.
  assert (forall P : Prop,
             (exists call, call ∈ t /\ isWriteFile call = true) -> P) as Hno.
  { intros P (call & Hin & Hw). rewrite (Ht _ Hin) in Hw. discriminate Hw. }
  assert (length (filter (fun call => isWriteFile call = true) t) <= 1) as Hlen.
  { rewrite Hfilter. simpl. lia. }
  destruct err0 as [e|]; [intros ->; split; [exact Hlen | exact (Hno _)] |].
  destruct cfg0 as [cfg|]; [| intros ->; split; [exact Hlen | exact (Hno _)]].
  destruct (String.eqb (CurrentContext cfg) "");
    [intros ->; split; [exact Hlen | exact (Hno _)] |].
  destruct (Contexts cfg !! CurrentContext cfg) as [ctx|];
    [| intros ->; split; [exact Hlen | exact (Hno _)]].
  destruct (applySetFlags flags ctx) as [[[ctx1 updated]|e]|];
    [| intros ->; split; [exact Hlen | exact (Hno _)]
     | intros ->; split; [exact Hlen | exact (Hno _)]].
  destruct updated; cbn [negb]; [| intros ->; split; [exact Hlen | exact (Hno _)]].
  unfold mbind at 1, Traced_bind. unfold SaveConfig. unfold mbind at 1, Traced_bind.
  destruct (GetConfigPath_trace os w1 t) as ([path err] & w2 & t2 & -> & Ht2).
  assert (filter (fun call => isWriteFile call = true) (t ++ t2)%list = []) as Hfilter2.
  { rewrite filter_app, Hfilter, (filter_no_write Ht2). reflexivity. }
  destruct err as [e|];
    [intros ->; unfold mret, Traced_ret; cbn [fst snd]; split;
     [rewrite Hfilter2; simpl; lia | eauto] |].
  match goal with
  | |- context [MarshalIndent ?c] => destruct (MarshalIndent c) as [data [e|]]
  end; [intros ->; unfold mret, Traced_ret; cbn [fst snd]; split;
     [rewrite Hfilter2; simpl; lia | eauto] |].
  traced_step.
  destruct (goos.WriteFile os path data 420 w2) as [[e|] w3]; simpl.
  - intros ->. cbn [fst snd].
    split;
      [| intros _; right;
         exists (wrapError ("failed to write config file: " ++ Error e) e); reflexivity].
    rewrite filter_app, Hfilter2. simpl. lia.
  - match goal with
    | |- context [goos.WriteStdout os ?x ?y] =>
        destruct (goos.WriteStdout os x y) as [[] w4]
    end. simpl. intros ->. cbn [fst snd]. split; [| intros _; left; reflexivity].
    do 2 rewrite filter_app. rewrite Hfilter2. simpl. lia.
Qed.

(** X29. On a machine without a configuration file [flickr context
    set] fails for want of a current context, whatever the flags: the
    missing file reads as the empty configuration.  The run looks up the
    home directory, creates the configuration directory in it and tries
    the one read, and calls nothing else: the configuration file is not
    written. *)
Theorem contextSetAction_without_config_file
    {W} (os : goos.OS W) (flags : SetFlags) (w w1 w2 w3 : W)
    (homeDir : string) (data : list byte) (err : error) :
  let configDir := goos.Join os homeDir ".flickr" in
  let path := goos.Join os configDir "config.json" in
  goos.UserHomeDir os w = ((homeDir, None), w1) ->
  goos.MkdirAll os configDir 493 w1 = (None, w2) ->
  goos.ReadFile os path w2 = ((data, Some err), w3) ->
  goos.IsNotExist os err = true ->
  result (run (LoadConfig os) w)
  = (Some {| CurrentContext := ""; Contexts := ∅ |}, None)
  /\ run (contextSetAction os flags) w
     = (Returns (Some (errorString "no current context set")),
        (w3, [goos.CallUserHomeDir; goos.CallMkdirAll configDir 493;
              goos.CallReadFile path])).
Proof.
  intros configDir path Hhome Hmkdir Hread Hmissing. unfold run.
  assert (LoadConfig os (w, [])
          = ((Some {| CurrentContext := ""; Contexts := ∅ |}, None),
             (w3, [goos.CallUserHomeDir; goos.CallMkdirAll configDir 493;
                   goos.CallReadFile path]))) as Hload.
  { unfold LoadConfig, GetConfigPath. traced_step. rewrite Hhome. simpl.
    fold configDir. rewrite Hmkdir. simpl. fold configDir. fold path.
    rewrite Hread. simpl. rewrite Hmissing. reflexivity. }
  split; [rewrite Hload; reflexivity |].
  unfold contextSetAction. unfold mbind at 1, Traced_bind. rewrite Hload.
  reflexivity.
Qed.

End WithJSON.

Lemma cut_first (k v : string) :
  Contains k "=" = false -> cut (k ++ "=" ++ v) "=" = Some (k, v).
Proof.
  induction k as [|c k IH]; intros Hk.
  - reflexivity.
  - cbn [Contains] in Hk.
    destruct (HasPrefix (String c k) "=") eqn:Hp; [discriminate Hk |].
    change (String c k ++ "=" ++ v) with (String c (k ++ "=" ++ v)).
    cbn [cut].
    replace (HasPrefix (String c (k ++ "=" ++ v)) "=") with false
      by (cbn [HasPrefix] in Hp |- *; exact (eq_sym Hp)).
    rewrite (IH Hk). reflexivity.
Qed.

Lemma cut_none (s : string) : Contains s "=" = false -> cut s "=" = None.
Proof.
  induction s as [|c s IH]; intros Hs; [reflexivity |].
  cbn [Contains] in Hs. cbn [cut].
  destruct (HasPrefix (String c s) "="); [discriminate Hs |].
  rewrite (IH Hs). reflexivity.
Qed.

Lemma SplitN_2_keyValue (k v : string) :
  Contains k "=" = false -> SplitN_2 (keyValue (k, v)) "=" = [k; v].
Proof.
  intros Hk. unfold SplitN_2, keyValue. cbn [fst snd].
  rewrite (cut_first k v Hk). reflexivity.
Qed.

(** X30. The [--env] flags are read back as they are written: entries
    [KEY=VALUE] whose keys hold no ["="] are stored one after the other,
    a later entry replacing an earlier one of the same key, and the
    value is everything after the first ["="]; an entry without ["="]
    is refused and names itself in the error. *)
Theorem setEnvironmentVars_entries
    (entries : list (string * string)) (vars : gmap string string)
    (bad : string) (rest : list string) :
  Forall (fun kv => Contains (fst kv) "=" = false) entries ->
  setEnvironmentVars (map keyValue entries) vars
  = inl (fold_left (fun m kv => <[fst kv := snd kv]> m) entries vars)
  /\ (Contains bad "=" = false ->
      setEnvironmentVars (map keyValue entries ++ bad :: rest)%list vars
      = inr (errorString ("invalid env format: " ++ bad ++ " (expected KEY=VALUE)"))).
Proof.
  intros Hkeys. revert vars.
  induction Hkeys as [|[k v] entries Hk _ IH]; intros vars;
    cbn [map fold_left app fst snd].
  - split; [reflexivity |]. intros Hbad. cbn [setEnvironmentVars].
    unfold SplitN_2. rewrite (cut_none bad Hbad). reflexivity.
  - cbn [setEnvironmentVars]. cbn [fst] in Hk.
    rewrite !(SplitN_2_keyValue k v Hk). apply IH.
Qed.

Lemma setEnvironmentVars_entries_witness :
  setEnvironmentVars ["MODE=a=b"; "MODE=c"] ∅ = inl {[ "MODE" := "c" ]}.
Proof.
  etrans.
  - exact (proj1 (@setEnvironmentVars_entries [("MODE", "a=b"); ("MODE", "c")] ∅
                    "" [] ltac:(repeat constructor))).
  - vm_compute. reflexivity.
Defined.


Lemma contextSetAction_writes_after_validation_witness :
  result (run (@contextSetAction signer_test.toyJSON _ signer_test.memOS
                 signer_test.keystoreFlags) signer_test.configured)
  = Returns None
  \/ exists cause : error,
       result (run (@contextSetAction signer_test.toyJSON _ signer_test.memOS
                      signer_test.keystoreFlags) signer_test.configured)
       = Returns (Some (wrapError ("failed to save config: " ++ Error cause) cause)).
Proof.
  apply (proj2 (@contextSetAction_writes_after_validation signer_test.toyJSON _
                  signer_test.memOS signer_test.keystoreFlags signer_test.configured)).
  exists (goos.CallWriteFile "/home/operator/.flickr/config.json"
            (map byte_of_ascii (list_ascii_of_string "default")) 420).
  split; [| reflexivity].
  vm_compute. do 5 apply list_elem_of_further. apply list_elem_of_here.
Defined.

Lemma contextSetAction_without_config_file_witness :
  run (@contextSetAction signer_test.toyJSON _ signer_test.memOS
         signer_test.keystoreFlags) ∅
  = (Returns (Some (errorString "no current context set")),
     (∅, [goos.CallUserHomeDir; goos.CallMkdirAll "/home/operator/.flickr" 493;
          goos.CallReadFile "/home/operator/.flickr/config.json"])).
Proof.
  exact (proj2 (@contextSetAction_without_config_file signer_test.toyJSON _
                  signer_test.memOS signer_test.keystoreFlags ∅ ∅ ∅ ∅
                  "/home/operator" []
                  (errorString
                     "open /home/operator/.flickr/config.json: no such file or directory")
                  eq_refl eq_refl eq_refl eq_refl)).
Defined.

End contextcmd_facts.
